(** * crunchy-proxy, package [connect]: message framing and connection set-up

    A shallow embedding of [connect/connect.go] ([Send],
    [ReceiveStartupMessage], [Receive], [Connect]) together with the parts of
    the Go standard library it calls ([net.Conn], [io.ReadFull],
    [encoding/binary], [bytes.Buffer]).

    Conventions.
    - A Go [[]byte] is a [list byte]; the nil slice is the empty list.
    - Go's [int] is the 64-bit signed integer of the platforms the proxy is
      built for; it is a [Z] with the wrap-around written out ([wrap_int]).
    - A Go [error] value is an [option error], [None] being [nil].
    - Memory is not modelled: [make] succeeds for every non-negative size. *)

From Stdlib Require Import List ZArith Lia Bool.
From Stdlib Require String.
From Stdlib Require Strings.Byte.
From Stdlib Require Import Init.Byte.
From coqutil Require Import Z.bitblast.
Import ListNotations.

Import String.StringSyntax.

Abbreviation string := String.string.

Local Open Scope string_scope.

Local Open Scope Z_scope.

(** ** Machine integers *)

Definition int_bits : Z := 64.

(** Two's-complement reduction of a mathematical integer to Go's [int]. *)
Definition wrap_int (z : Z) : Z :=
  (z + 2 ^ (int_bits - 1)) mod 2 ^ int_bits - 2 ^ (int_bits - 1).

(** Reduction to a [uint32]. *)
Definition wrap_uint32 (z : Z) : Z := z mod 2 ^ 32.

(** The conversion [int(u)] of a [uint32] and the subtraction of two [int]s. *)
Definition int_of_uint32 (u : Z) : Z := wrap_int u.
Definition int_sub (a b : Z) : Z := wrap_int (a - b).

(** ** Bytes and slices *)

Definition byte_to_Z (b : byte) : Z := Z.of_N (Byte.to_N b).

(** The conversion [byte(z)]: the low eight bits. *)
Definition byte_of_Z (z : Z) : byte :=
  match Byte.of_N (Z.to_N (Z.land z 255)) with
  | Some b => b
  | None => x00
  end.

(** [s[lo:hi]] for [lo <= hi <= len(s)]. *)
Definition slice (s : list byte) (lo hi : nat) : list byte :=
  firstn (hi - lo) (skipn lo s).

(** [s[i]] for [i < len(s)]. *)
Definition index (s : list byte) (i : nat) : byte := nth i s x00.

(** [copy(dst, src)]: overwrites the front of [dst]; returns the number of
    bytes copied and the new contents of [dst]. *)
Definition copy (dst src : list byte) : nat * list byte :=
  let moved := firstn (length dst) src in
  (length moved, moved ++ skipn (length moved) dst).

(** ** Go errors *)

Inductive error : Type :=
| EOF                       (* io.EOF *)
| ErrUnexpectedEOF          (* io.ErrUnexpectedEOF *)
| ErrShortBuffer            (* io.ErrShortBuffer *)
| ErrClosed                 (* net.ErrClosed: use of closed network connection *)
| OpError (reason : string) (* any other *net.OpError *).

(** [err.Error()] *)
Definition Error (e : error) : string :=
  match e with
  | EOF => "EOF"
  | ErrUnexpectedEOF => "unexpected EOF"
  | ErrShortBuffer => "short buffer"
  | ErrClosed => "use of closed network connection"
  | OpError r => r
  end.

(** ** Execution: state passing with panics

    A computation runs on a state [S]; it returns a value, or panics, or
    (for the read loop of [io.ReadAtLeast], which is iterated on fuel) does
    not finish. *)

Inductive run (S A : Type) : Type :=
| Returned (a : A) (s : S)
| Panicked (msg : string) (s : S)
| Diverged.

Arguments Returned {S A} a s.
Arguments Panicked {S A} msg s.
Arguments Diverged {S A}.

Definition IO (S A : Type) : Type := S -> run S A.

Definition ret {S A} (a : A) : IO S A := fun s => Returned a s.

Definition bind {S A B} (m : IO S A) (k : A -> IO S B) : IO S B :=
  fun s =>
    match m s with
    | Returned a s' => k a s'
    | Panicked msg s' => Panicked msg s'
    | Diverged => Diverged
    end.

Definition panic {S A} (msg : string) : IO S A := fun s => Panicked msg s.

Declare Scope io_scope.
Delimit Scope io_scope with io.
Notation "x <- m ;; k" := (bind m (fun x => k))
  (at level 61, m at next level, right associativity) : io_scope.
Notation "' pat <- m ;; k" := (bind m (fun x => match x with pat => k end))
  (at level 61, pat pattern, m at next level, right associativity) : io_scope.
Notation "m ;; k" := (bind m (fun _ => k))
  (at level 61, right associativity) : io_scope.

(** [make([]byte, n)]: a zeroed slice; a negative length panics. *)
Definition make {S} (n : Z) : IO S (list byte) :=
  if n <? 0 then panic "makeslice: len out of range"
  else ret (repeat x00 (Z.to_nat n)).

(** ** Package [net]: a connection

    One end of a bidirectional byte stream.  The peer's bytes arrive in
    segments; a [Read] never crosses a segment boundary.  Once the segments
    are used up, [Read] reports [at_end] ([EOF] when the peer has closed). *)

Module net.

Inductive call : Type :=
| CallRead (len : nat)
| CallWrite (p : list byte)
| CallClose.

Record Conn : Type := mkConn {
  incoming : list (list byte);  (* segments not yet read *)
  at_end : error;               (* what Read reports after the last segment *)
  write_error : option error;   (* the failure of Write, if it fails *)
  sent : list byte;             (* the bytes written so far *)
  is_closed : bool;             (* Close has been called *)
  calls : list call             (* the calls made on the connection *)
}.

Definition called (c : Conn) (k : call) : Conn :=
  mkConn (incoming c) (at_end c) (write_error c) (sent c) (is_closed c)
         (calls c ++ [k]).

Definition with_incoming (c : Conn) (segs : list (list byte)) : Conn :=
  mkConn segs (at_end c) (write_error c) (sent c) (is_closed c) (calls c).

(** The bytes the peer still delivers before the stream ends. *)
Definition pending (c : Conn) : list byte := concat (incoming c).

(** [c.Read(b)]: the count, the error, the new contents of [b], and the
    connection afterwards. *)
Definition Read (c : Conn) (b : list byte)
  : nat * option error * list byte * Conn :=
  let c := called c (CallRead (length b)) in
  if is_closed c then (0%nat, Some ErrClosed, b, c)
  else if (length b =? 0)%nat then (0%nat, None, b, c)
  else
    match incoming c with
    | [] => (0%nat, Some (at_end c), b, c)
    | seg :: rest =>
        let '(n, b') := copy b seg in
        let left := skipn n seg in
        let segs := match left with [] => rest | _ :: _ => left :: rest end in
        (n, None, b', with_incoming c segs)
    end.

(** [c.Write(p)] *)
Definition Write (c : Conn) (p : list byte) : nat * option error * Conn :=
  let c := called c (CallWrite p) in
  if is_closed c then (0%nat, Some ErrClosed, c)
  else
    match write_error c with
    | Some e => (0%nat, Some e, c)
    | None =>
        (length p, None,
         mkConn (incoming c) (at_end c) (write_error c) (sent c ++ p)
                (is_closed c) (calls c))
    end.

(** [c.Close()] *)
Definition Close (c : Conn) : option error * Conn :=
  let c := called c CallClose in
  if is_closed c then (Some ErrClosed, c)
  else
    (None,
     mkConn (incoming c) (at_end c) (write_error c) (sent c) true (calls c)).

End net.

(** ** Package [io] *)

Module io.

Definition is_nil (err : option error) : bool :=
  match err with None => true | Some _ => false end.

(** The loop of [ReadAtLeast]:
    [for n < min && err == nil { nn, err = r.Read(buf[n:]); n += nn }]. *)
Fixpoint read_loop (fuel : nat) (r : net.Conn) (buf : list byte)
         (min n : nat) (err : option error)
  : option (nat * option error * list byte * net.Conn) :=
  if (n <? min)%nat && is_nil err then
    match fuel with
    | O => None
    | S fuel' =>
        let '(nn, err', tail, r') := net.Read r (skipn n buf) in
        read_loop fuel' r' (firstn n buf ++ tail) min (n + nn)%nat err'
    end
  else Some (n, err, buf, r).

(** Every [Read] that does not end the loop uses up a segment. *)
Definition read_fuel (r : net.Conn) : nat := S (length (net.incoming r)).

Definition ReadAtLeast (buf : list byte) (min : nat)
  : IO net.Conn (nat * option error * list byte) :=
  fun r =>
    if (length buf <? min)%nat then Returned (0%nat, Some ErrShortBuffer, buf) r
    else
      match read_loop (read_fuel r) r buf min 0 None with
      | None => Diverged
      | Some (n, err, buf', r') =>
          let err :=
            if (min <=? n)%nat then None
            else if (0 <? n)%nat && match err with Some EOF => true | _ => false end
                 then Some ErrUnexpectedEOF
                 else err in
          Returned (n, err, buf') r'
      end.

Definition ReadFull (buf : list byte)
  : IO net.Conn (nat * option error * list byte) :=
  ReadAtLeast buf (length buf).

End io.

(** ** Package [encoding/binary] *)

Module binary.

(** [binary.BigEndian.Uint32(b)], for [len(b) >= 4]. *)
Definition BigEndian_Uint32 (b : list byte) : Z :=
  Z.lor (Z.lor (Z.lor (byte_to_Z (index b 3))
                      (Z.shiftl (byte_to_Z (index b 2)) 8))
               (Z.shiftl (byte_to_Z (index b 1)) 16))
        (Z.shiftl (byte_to_Z (index b 0)) 24).

(** [binary.BigEndian.PutUint32(b, v)] on a fresh four-byte slice. *)
Definition BigEndian_PutUint32 (v : Z) : list byte :=
  [byte_of_Z (Z.shiftr v 24); byte_of_Z (Z.shiftr v 16);
   byte_of_Z (Z.shiftr v 8); byte_of_Z v].

End binary.

(** ** Package [bytes]: [bytes.Buffer] *)

Module bytes.

Record Buffer : Type := mkBuffer {
  buf : list byte;  (* contents *)
  off : nat         (* read position *)
}.

(** [bytes.Buffer{}] *)
Definition empty : Buffer := mkBuffer [] 0.

Definition Write (b : Buffer) (p : list byte) : Buffer :=
  mkBuffer (buf b ++ p) (off b).

Definition Bytes (b : Buffer) : list byte := skipn (off b) (buf b).

Definition Len (b : Buffer) : Z := Z.of_nat (length (buf b) - off b).

End bytes.

(** ** The world of a connection attempt

    [Connect] opens a socket, reads the process-wide configuration and
    writes to the log.  A [net.Conn] value held by the program is a handle:
    nil, or the index of a socket among those opened so far. *)

Inductive log_level : Type := DebugLevel | InfoLevel | ErrorLevel.

Record log_entry : Type := mkEntry {
  level : log_level;
  format : string;
  args : list string
}.

Definition handle : Type := option nat.

Record World : Type := mkWorld {
  network : string -> string -> net.Conn + error; (* what dialling gives *)
  settings : string -> bool;                       (* the configuration *)
  sockets : list net.Conn;                         (* the opened sockets *)
  sink : list log_entry                            (* the log *)
}.

Definition with_sockets (w : World) (l : list net.Conn) : World :=
  mkWorld (network w) (settings w) l (sink w).

Definition store (l : list net.Conn) (i : nat) (c : net.Conn)
  : list net.Conn :=
  firstn i l ++ c :: skipn (S i) l.

(** A method call on the socket behind a handle. *)
Definition on {A} (h : handle) (method : net.Conn -> A * net.Conn)
  : IO World A :=
  fun w =>
    match h with
    | Some i =>
        match nth_error (sockets w) i with
        | Some c =>
            let '(a, c') := method c in
            Returned a (with_sockets w (store (sockets w) i c'))
        | None => Panicked "invalid memory address or nil pointer dereference" w
        end
    | None => Panicked "invalid memory address or nil pointer dereference" w
    end.

(** [net.Dial(network, address)] *)
Definition net_Dial (net address : string)
  : IO World (handle * option error) :=
  fun w =>
    match network w net address with
    | inl c =>
        Returned (Some (length (sockets w)), None)
                 (with_sockets w (sockets w ++ [c]))
    | inr err => Returned (None, Some err) w
    end.

(** Modelled from the spec: package [config] is not part of the sources.
    The spec describes the lookup as a read-only, process-wide boolean flag. *)
Definition config_GetBool (key : string) : IO World bool :=
  fun w => Returned (settings w key) w.

(** Modelled from the spec: package [util/log] is not part of the sources.
    The spec describes a logging sink that receives one event per call and
    does not affect control flow. *)
Module log.

Definition emit (l : log_level) (fmt : string) (a : list string)
  : IO World unit :=
  fun w =>
    Returned tt (mkWorld (network w) (settings w) (sockets w)
                         (sink w ++ [mkEntry l fmt a])).

Definition Info (msg : string) : IO World unit := emit InfoLevel msg [].
Definition Debug (msg : string) : IO World unit := emit DebugLevel msg [].
Definition Error (msg : string) : IO World unit := emit ErrorLevel msg [].
Definition Errorf (fmt : string) (a : list string) : IO World unit :=
  emit ErrorLevel fmt a.

End log.

(** Modelled from the spec: package [protocol] is not part of the sources.
    The spec gives the wire layout: every integer is written big-endian,
    and the SSL request is the length 8 followed by the four-byte
    SSL-request code. *)
Module protocol.

Record MessageBuffer : Type := mkMessageBuffer { buffer : bytes.Buffer }.

Definition NewMessageBuffer (message : list byte) : MessageBuffer :=
  mkMessageBuffer (bytes.mkBuffer message 0).

(** [WriteInt32(value int32)]: four bytes, most significant first, of
    [uint32(value)]. *)
Definition WriteInt32 (m : MessageBuffer) (value : Z) : MessageBuffer :=
  mkMessageBuffer
    (bytes.Write (buffer m) (binary.BigEndian_PutUint32 (wrap_uint32 value))).

Definition Bytes (m : MessageBuffer) : list byte := bytes.Bytes (buffer m).

End protocol.

(** ** Package [connect] *)

Local Open Scope io_scope.

(** The three results [([]byte, int, error)] of the framing functions. *)
Definition framed : Type := list byte * Z * option error.

(** [func Send(connection net.Conn, message []byte) (int, error)] *)
Definition Send (connection : handle) (message : list byte)
  : IO World (nat * option error) :=
  on connection (fun c => net.Write c message).

(** [func ReceiveStartupMessage(connection net.Conn) ([]byte, int, error)]:
    a startup message has no type byte.  The connection is the state. *)
Definition ReceiveStartupMessage : IO net.Conn framed :=
  let buffer := bytes.empty in
  header <- make 4 ;;
  '(_, err, header) <- io.ReadFull header ;;
  match err with
  | Some err => ret ([], 0, Some err)
  | None =>
      let buffer := bytes.Write buffer header in
      let n := int_sub (int_of_uint32
                          (binary.BigEndian_Uint32
                             (slice header 0 (length header)))) 4 in
      payload <- make n ;;
      '(_, err, payload) <- io.ReadFull payload ;;
      match err with
      | Some err => ret ([], 0, Some err)
      | None =>
          let buffer := bytes.Write buffer payload in
          ret (bytes.Bytes buffer, bytes.Len buffer, None)
      end
  end.

(** [func Receive(connection net.Conn) ([]byte, int, error)]: a normal
    FE/BE message.  The connection is the state. *)
Definition Receive : IO net.Conn framed :=
  let buffer := bytes.empty in
  header <- make 5 ;;
  '(_, err, header) <- io.ReadFull header ;;
  match err with
  | Some err => ret ([], 0, Some err)
  | None =>
      let buffer := bytes.Write buffer header in
      let n := int_sub (int_of_uint32
                          (binary.BigEndian_Uint32 (slice header 1 5))) 4 in
      payload <- make n ;;
      '(n, err, payload) <- io.ReadFull payload ;;
      match err with
      | Some err => ret ([], Z.of_nat n, Some err)
      | None =>
          let buffer := bytes.Write buffer payload in
          ret (bytes.Bytes buffer, bytes.Len buffer, None)
      end
  end.

Section Connector.

(** The SSL-request code [protocol.SSLRequestCode] and the stream upgrade
    [UpgradeClientConnection] belong to files that are not part of the
    sources; [Connect] is parametric in both. *)
Variable SSLRequestCode : Z.
Variable UpgradeClientConnection : string -> handle -> IO World handle.

(** The SSL request message that [Connect] builds. *)
Definition ssl_request : list byte :=
  let message := protocol.NewMessageBuffer [] in
  let message := protocol.WriteInt32 message 8 in
  let message := protocol.WriteInt32 message SSLRequestCode in
  protocol.Bytes message.

(** [func Connect(host string) (net.Conn, error)] *)
Definition Connect (host : string)
  : IO World (handle * option error) :=
  '(connection, err) <- net_Dial "tcp" host ;;
  match err with
  | Some err => ret (None, Some err)
  | None =>
      enabled <- config_GetBool "credentials.ssl.enable" ;;
      if enabled then
        log.Info "SSL connections are enabled." ;;
        (* Create and send the SSL request message. *)
        '(_, err) <- on connection (fun c => net.Write c ssl_request) ;;
        match err with
        | Some err =>
            log.Error "Error sending SSL request to backend." ;;
            log.Errorf "Error: %s" [Error err] ;;
            ret (None, Some err)
        | None =>
            (* Receive the SSL response message. *)
            response <- make 4096 ;;
            '(_, err, response) <-
              on connection (fun c => net.Read c response) ;;
            match err with
            | Some err =>
                log.Error "Error receiving SSL response from backend." ;;
                log.Errorf "Error: %s" [Error err] ;;
                ret (None, Some err)
            | None =>
                if (0 <? length response)%nat
                   && negb (Byte.eqb (index response 0) "S"%byte)
                then
                  log.Error "The backend does not allow SSL connections." ;;
                  _ <- on connection net.Close ;;
                  ret (connection, None)
                else
                  log.Debug "SSL connections are allowed by PostgreSQL." ;;
                  log.Debug "Attempting to upgrade connection." ;;
                  connection <- UpgradeClientConnection host connection ;;
                  log.Debug "Connection successfully upgraded." ;;
                  ret (connection, None)
            end
        end
      else ret (connection, None)
  end.

End Connector.

(** The outcome of the negotiation in the words of the specification:
    derived from the first byte of the backend's response, 'S' for allowed
    and anything else, or an empty response, for rejected. *)
Inductive SSLNegotiationOutcome : Type := Allowed | Rejected.

Definition spec_outcome (response : list byte) : SSLNegotiationOutcome :=
  match response with
  | b :: _ => if Byte.eqb b "S"%byte then Allowed else Rejected
  | [] => Rejected
  end.

(** A connection on which nothing has happened yet. *)
Definition fresh_conn (segs : list (list byte)) (e : error) : net.Conn :=
  net.mkConn segs e None [] false [].

(** A world with one backend, no socket opened and nothing logged. *)
Definition fresh_world (backend : net.Conn + error) (ssl : bool) : World :=
  mkWorld (fun _ _ => backend) (fun _ => ssl) [] [].

(** The SSL-request code of the PostgreSQL protocol, 1234 in the upper and
    5679 in the lower sixteen bits. *)
Definition postgres_SSLRequestCode : Z := 80877103.

(** An upgrade that leaves the socket as it is and keeps the handle. *)
Definition upgrade_in_place (_ : string) (connection : handle)
  : IO World handle := ret connection.

(** ** Definitions used in the statements *)

(** [r'] is [r] after some reads: nothing but the incoming bytes and the
    record of calls has changed. *)
Definition after_reads (r r' : net.Conn) : Prop :=
  net.is_closed r' = net.is_closed r
  /\ net.at_end r' = net.at_end r
  /\ net.write_error r' = net.write_error r
  /\ net.sent r' = net.sent r.

(** The connection after a [Read] of [k] bytes that took [nn] bytes of the
    first segment [seg]. *)
Definition took (r : net.Conn) (k nn : nat) (seg : list byte)
           (segs : list (list byte)) : net.Conn :=
  net.with_incoming (net.called r (net.CallRead k))
    (match skipn nn seg with [] => segs | _ :: _ => skipn nn seg :: segs end).

(** The error of a [ReadFull] that came up short: [io.EOF] becomes
    [io.ErrUnexpectedEOF] once a byte has been read. *)
Definition short_read_error (got : nat) (e : error) : error :=
  match got, e with
  | S _, EOF => ErrUnexpectedEOF
  | _, _ => e
  end.

(** The entry that [Connect] logs first when SSL is switched on. *)
Definition enabled_entry : log_entry :=
  mkEntry InfoLevel "SSL connections are enabled." [].

(** A regular message in three segments, followed by one more byte. *)
Definition sample_regular : net.Conn :=
  fresh_conn [["Q"%byte; x00]; [x00; x00; x08; x01]; [x02; x03; x04; x05]] EOF.

(** A startup message in three segments, followed by one more byte. *)
Definition sample_startup : net.Conn :=
  fresh_conn [[x00; x00]; [x00; x08; x01]; [x02; x03; x04; x05]] EOF.

(** A backend that answers the SSL request with the given segments. *)
Definition backend_answering (segs : list (list byte)) : World :=
  fresh_world (inl (fresh_conn segs EOF)) true.

(** A backend to which nothing can be written. *)
Definition backend_refusing_writes : World :=
  fresh_world
    (inl (net.mkConn [] EOF (Some (OpError "broken pipe")) [] false [])) true.

(** [r'] is [r] after reads and nothing else: besides the incoming bytes,
    the only change is a run of [Read] calls added to the record. *)
Definition only_reads (r r' : net.Conn) : Prop :=
  after_reads r r'
  /\ exists sizes, net.calls r' = net.calls r ++ map net.CallRead sizes.

(** The state a run ends in, and what it ends with: a value or a panic. *)
Definition final_state {S A} (x : run S A) : option S :=
  match x with
  | Returned _ s | Panicked _ s => Some s
  | Diverged => None
  end.

Definition outcome {S A} (x : run S A) : option (A + string) :=
  match x with
  | Returned a _ => Some (inl a)
  | Panicked msg _ => Some (inr msg)
  | Diverged => None
  end.

(** A backend that cannot be reached. *)
Definition backend_unreachable : World :=
  fresh_world (inr (OpError "connection refused")) true.

(** * Properties *)

(** ** Integers and byte order *)

Lemma byte_to_Z_range (b : byte) : 0 <= byte_to_Z b < 256.
Proof.
  unfold byte_to_Z. pose proof (Byte.to_N_bounded b) as H.
  revert H. generalize (Byte.to_N b). intros n H. lia.
Qed.

Lemma lor_below (k a b : Z) :
  0 <= k -> 0 <= a < 2 ^ k -> 0 <= b < 2 ^ k -> 0 <= Z.lor a b < 2 ^ k.
Proof.
  intros Hk [Ha Ha'] [Hb Hb']. split.
  - apply Z.lor_nonneg. split; assumption.
  - destruct (Z.eq_dec (Z.lor a b) 0) as [E | E].
    + rewrite E. apply Z.pow_pos_nonneg; lia.
    + assert (0 <= Z.lor a b) by (apply Z.lor_nonneg; split; assumption).
      assert (0 < k).
      { destruct (Z.eq_dec k 0) as [-> | ?]; [| lia].
        exfalso. apply E.
        replace a with 0 by (simpl in Ha'; lia).
        replace b with 0 by (simpl in Hb'; lia). reflexivity. }
      apply Z.log2_lt_pow2; [lia |].
      rewrite Z.log2_lor by assumption.
      apply Z.max_lub_lt.
      * destruct (Z.eq_dec a 0) as [-> | ?]; [simpl; lia |].
        apply Z.log2_lt_pow2; lia.
      * destruct (Z.eq_dec b 0) as [-> | ?]; [simpl; lia |].
        apply Z.log2_lt_pow2; lia.
Qed.

Lemma shifted_byte_below (b : byte) (k : Z) :
  0 <= k <= 24 -> 0 <= Z.shiftl (byte_to_Z b) k < 2 ^ 32.
Proof.
  intros Hk. pose proof (byte_to_Z_range b) as Hb.
  rewrite Z.shiftl_mul_pow2 by lia.
  assert (0 < 2 ^ k) by (apply Z.pow_pos_nonneg; lia).
  assert (2 ^ k <= 2 ^ 24) by (apply Z.pow_le_mono_r; lia).
  change (2 ^ 32) with (256 * 2 ^ 24). nia.
Qed.

(** A decoded length is a [uint32]. *)
Lemma BigEndian_Uint32_range (b : list byte) :
  0 <= binary.BigEndian_Uint32 b < 2 ^ 32.
Proof.
  unfold binary.BigEndian_Uint32.
  repeat apply lor_below; try lia; try (apply shifted_byte_below; lia).
  pose proof (byte_to_Z_range (index b 3)). lia.
Qed.

Lemma wrap_int_id (z : Z) : - 2 ^ 63 <= z < 2 ^ 63 -> wrap_int z = z.
Proof.
  intros H. unfold wrap_int, int_bits.
  change (64 - 1) with 63.
  rewrite Z.mod_small; [lia |].
  change (2 ^ 64) with (2 ^ 63 + 2 ^ 63). lia.
Qed.

(** On a 64-bit [int] the payload size [int(L) - 4] is computed exactly. *)
Lemma payload_size_exact (L : Z) :
  0 <= L < 2 ^ 32 -> int_sub (int_of_uint32 L) 4 = L - 4.
Proof.
  intros H. unfold int_sub, int_of_uint32.
  assert (2 ^ 32 < 2 ^ 63) by (apply Z.pow_lt_mono_r; lia).
  rewrite (wrap_int_id L) by lia.
  apply wrap_int_id. lia.
Qed.

Lemma byte_to_Z_of_Z (z : Z) : byte_to_Z (byte_of_Z z) = Z.land z 255.
Proof.
  unfold byte_to_Z, byte_of_Z.
  assert (Hm : 0 <= Z.land z 255 < 256).
  { change 255 with (Z.ones 8). rewrite Z.land_ones by lia.
    apply Z.mod_pos_bound. reflexivity. }
  destruct (Byte.of_N (Z.to_N (Z.land z 255))) as [b |] eqn:E.
  - apply Byte.to_of_N in E. rewrite E. lia.
  - apply Byte.of_N_None_iff in E. lia.
Qed.

Lemma recombine_uint32 (v : Z) :
  0 <= v < 2 ^ 32 ->
  Z.lor (Z.lor (Z.lor (Z.land v 255) (Z.shiftl (Z.land (Z.shiftr v 8) 255) 8))
               (Z.shiftl (Z.land (Z.shiftr v 16) 255) 16))
        (Z.shiftl (Z.land (Z.shiftr v 24) 255) 24) = v.
Proof.
  intros H.
  assert (Hv : v = Z.land v (Z.ones 32))
    by (rewrite Z.land_ones by lia; rewrite Z.mod_small; lia).
  rewrite Hv at 5.
  change 255 with (Z.ones 8).
  Z.bitblast.
Qed.

(** Decoding undoes encoding. *)
Lemma BigEndian_Uint32_PutUint32 (v : Z) :
  0 <= v < 2 ^ 32 ->
  binary.BigEndian_Uint32 (binary.BigEndian_PutUint32 v) = v.
Proof.
  intros H. unfold binary.BigEndian_Uint32, binary.BigEndian_PutUint32, index.
  cbn [nth]. rewrite !byte_to_Z_of_Z. now apply recombine_uint32.
Qed.

Lemma wrap_uint32_range (z : Z) : 0 <= wrap_uint32 z < 2 ^ 32.
Proof. unfold wrap_uint32. apply Z.mod_pos_bound. reflexivity. Qed.

(** ** [bytes.Buffer] *)

Lemma Buffer_Len_Bytes (b : bytes.Buffer) :
  bytes.Len b = Z.of_nat (length (bytes.Bytes b)).
Proof.
  unfold bytes.Len, bytes.Bytes. now rewrite length_skipn.
Qed.

Lemma Buffer_two_writes (h p : list byte) :
  bytes.Bytes (bytes.Write (bytes.Write bytes.empty h) p) = h ++ p.
Proof. reflexivity. Qed.

(** ** [net.Conn]: reading *)

Lemma after_reads_refl (r : net.Conn) : after_reads r r.
Proof. repeat split. Qed.

Lemma after_reads_trans (a b c : net.Conn) :
  after_reads a b -> after_reads b c -> after_reads a c.
Proof.
  unfold after_reads. intros (?&?&?&?) (?&?&?&?).
  repeat split; congruence.
Qed.

Lemma Read_segment (r : net.Conn) (b seg : list byte) (segs : list (list byte)) :
  net.is_closed r = false ->
  length b <> 0%nat ->
  net.incoming r = seg :: segs ->
  let nn := Nat.min (length b) (length seg) in
  net.Read r b = (nn, None, firstn nn seg ++ skipn nn b, took r (length b) nn seg segs).
Proof.
  intros Hopen Hb Hin nn. unfold net.Read, took.
  cbn [net.is_closed net.called net.incoming]. rewrite Hopen, Hin.
  destruct (Nat.eqb_spec (length b) 0) as [E | _]; [contradiction |].
  unfold copy. rewrite length_firstn. fold nn.
  replace (firstn (length b) seg) with (firstn nn seg); [reflexivity |].
  unfold nn. destruct (Nat.le_ge_cases (length b) (length seg)) as [L | L].
  - now rewrite Nat.min_l.
  - rewrite Nat.min_r by assumption. now rewrite !firstn_all2 by lia.
Qed.

Lemma Read_at_end (r : net.Conn) (b : list byte) :
  net.is_closed r = false ->
  length b <> 0%nat ->
  net.incoming r = [] ->
  net.Read r b
  = (0%nat, Some (net.at_end r), b, net.called r (net.CallRead (length b))).
Proof.
  intros Hopen Hb Hin. unfold net.Read.
  cbn [net.is_closed net.called net.incoming net.at_end]. rewrite Hopen, Hin.
  destruct (Nat.eqb_spec (length b) 0) as [E | _]; [contradiction | reflexivity].
Qed.

Lemma Read_closed (r : net.Conn) (b : list byte) :
  net.is_closed r = true ->
  net.Read r b
  = (0%nat, Some ErrClosed, b, net.called r (net.CallRead (length b))).
Proof.
  intros Hc. unfold net.Read. cbn [net.is_closed net.called]. now rewrite Hc.
Qed.

Lemma took_pending r k nn seg segs :
  net.pending (took r k nn seg segs) = skipn nn seg ++ concat segs.
Proof.
  unfold took, net.pending, net.with_incoming. cbn [net.incoming].
  destruct (skipn nn seg); reflexivity.
Qed.

Lemma took_after_reads r k nn seg segs : after_reads r (took r k nn seg segs).
Proof. repeat split. Qed.

Lemma took_whole_segment r k seg segs :
  net.incoming (took r k (length seg) seg segs) = segs.
Proof.
  unfold took, net.with_incoming. cbn [net.incoming].
  now rewrite skipn_all.
Qed.

(** ** [io.ReadFull] *)

Lemma firstn_prefix {A} (n : nat) (l1 l2 : list A) :
  (n <= length l1)%nat -> firstn n (l1 ++ l2) = firstn n l1.
Proof.
  intros H. rewrite firstn_app.
  replace (n - length l1)%nat with 0%nat by lia.
  cbn [firstn]. apply app_nil_r.
Qed.

Lemma skipn_prefix {A} (n : nat) (l1 l2 : list A) :
  (n <= length l1)%nat -> skipn n (l1 ++ l2) = skipn n l1 ++ l2.
Proof.
  intros H. rewrite skipn_app.
  replace (n - length l1)%nat with 0%nat by lia. reflexivity.
Qed.

(** When the peer delivers enough bytes, the loop fills the buffer with the
    next bytes of the stream, whatever the segmentation. *)
Lemma read_loop_fills (fuel : nat) :
  forall (r : net.Conn) (buf : list byte) (min n : nat) (data rest : list byte),
    net.is_closed r = false ->
    net.pending r = data ++ rest ->
    length buf = min ->
    (n <= min)%nat ->
    length data = (min - n)%nat ->
    ((n < min)%nat -> (length (net.incoming r) < fuel)%nat) ->
    exists r',
      io.read_loop fuel r buf min n None
      = Some (min, None, firstn n buf ++ data, r')
      /\ net.pending r' = rest
      /\ after_reads r r'.
Proof.
  induction fuel as [| fuel IH]; intros r buf min n data rest
    Hopen Hpend Hbuf Hn Hdata Hfuel.
  - (* no fuel is needed: the buffer is full *)
    assert (n = min) by (destruct (Nat.eq_dec n min); [assumption | lia]).
    subst n. exists r. cbn [io.read_loop].
    rewrite Nat.ltb_irrefl. cbn [andb].
    destruct data; [| simpl in Hdata; lia].
    rewrite app_nil_r, firstn_all2 by lia.
    repeat split; assumption.
  - cbn [io.read_loop]. destruct (Nat.ltb_spec n min) as [Hlt | Hge].
    + cbn [andb io.is_nil].
      assert (Hlen : length (skipn n buf) = (min - n)%nat)
        by (rewrite length_skipn; lia).
      destruct (net.incoming r) as [| seg segs] eqn:Hin.
      { unfold net.pending in Hpend. rewrite Hin in Hpend. simpl in Hpend.
        destruct data; [simpl in Hdata; lia | discriminate]. }
      rewrite (Read_segment r (skipn n buf) seg segs Hopen) by (assumption || lia).
      rewrite Hlen. set (nn := Nat.min (min - n) (length seg)).
      assert (Hstream : seg ++ concat segs = data ++ rest)
        by (unfold net.pending in Hpend; rewrite Hin in Hpend; exact Hpend).
      assert (Hnn : (nn <= length seg)%nat) by (unfold nn; lia).
      assert (Hnn' : (nn <= length data)%nat) by (unfold nn; lia).
      assert (Hmoved : firstn nn seg = firstn nn data).
      { rewrite <- (firstn_prefix nn seg (concat segs)) by assumption.
        rewrite Hstream. now apply firstn_prefix. }
      assert (Hleft : skipn nn seg ++ concat segs = skipn nn data ++ rest).
      { rewrite <- (skipn_prefix nn seg (concat segs)) by assumption.
        rewrite Hstream. now apply skipn_prefix. }
      destruct (IH (took r (min - n) nn seg segs)
                   (firstn n buf ++ firstn nn seg ++ skipn nn (skipn n buf))
                   min (n + nn)%nat (skipn nn data) rest) as (r' & Hrun & Hp & Hs).
      * destruct (took_after_reads r (min - n) nn seg segs) as (Hc & _).
        now rewrite Hc.
      * now rewrite took_pending.
      * rewrite !length_app, !length_firstn, !length_skipn. lia.
      * lia.
      * rewrite length_skipn. lia.
      * intros Hmore.
        assert (nn = length seg) by (unfold nn in *; lia).
        subst nn. rewrite H. rewrite took_whole_segment.
        specialize (Hfuel Hlt). simpl in Hfuel. lia.
      * exists r'. split; [| split].
        -- rewrite Hrun. do 3 f_equal.
           assert (Hfront : length (firstn n buf ++ firstn nn seg) = (n + nn)%nat)
             by (rewrite length_app, !length_firstn; lia).
           rewrite app_assoc, firstn_prefix by lia.
           rewrite firstn_all2 by lia.
           rewrite Hmoved, <- app_assoc. f_equal. apply firstn_skipn.
        -- exact Hp.
        -- eapply after_reads_trans; [apply took_after_reads | exact Hs].
    + assert (n = min) by lia. subst n. cbn [andb].
      destruct data; [| simpl in Hdata; lia].
      exists r. rewrite app_nil_r, firstn_all2 by lia.
      repeat split. simpl in Hpend. exact Hpend.
Qed.

Lemma ReadFull_fills (r : net.Conn) (buf data rest : list byte) :
  net.is_closed r = false ->
  net.pending r = data ++ rest ->
  length buf = length data ->
  exists r',
    io.ReadFull buf r = Returned (length data, None, data) r'
    /\ net.pending r' = rest
    /\ after_reads r r'.
Proof.
  intros Hopen Hpend Hlen.
  destruct (read_loop_fills (io.read_fuel r) r buf (length buf) 0 data rest)
    as (r' & Hrun & Hp & Hs); try assumption; try lia.
  - intros _. unfold io.read_fuel. lia.
  - exists r'. unfold io.ReadFull, io.ReadAtLeast.
    rewrite Nat.ltb_irrefl, Hrun, Nat.leb_refl. cbn [firstn app].
    rewrite Hlen. split; [reflexivity | split; assumption].
Qed.

(** A read into an empty buffer does not touch the connection. *)
Lemma ReadFull_empty (r : net.Conn) :
  io.ReadFull [] r = Returned (0%nat, None, []) r.
Proof. reflexivity. Qed.

Lemma read_loop_done (fuel : nat) r buf min n err :
  (n <? min)%nat && io.is_nil err = false ->
  io.read_loop fuel r buf min n err = Some (n, err, buf, r).
Proof. intros H. destruct fuel; cbn [io.read_loop]; now rewrite H. Qed.

(** When the stream ends before the buffer is full, the loop reads all that
    is left and stops on the error the connection reports at its end. *)
Lemma read_loop_short (fuel : nat) :
  forall (r : net.Conn) (buf : list byte) (min n : nat),
    net.is_closed r = false ->
    length buf = min ->
    (n + length (net.pending r) < min)%nat ->
    (length (net.incoming r) < fuel)%nat ->
    exists r' buf',
      io.read_loop fuel r buf min n None
      = Some ((n + length (net.pending r))%nat, Some (net.at_end r), buf', r')
      /\ net.pending r' = []
      /\ after_reads r r'.
Proof.
  induction fuel as [| fuel IH]; intros r buf min n Hopen Hbuf Hshort Hfuel;
    [lia |].
  cbn [io.read_loop].
  destruct (Nat.ltb_spec n min) as [Hlt | Hge]; [| lia].
  cbn [andb io.is_nil].
  assert (Hlen : length (skipn n buf) = (min - n)%nat)
    by (rewrite length_skipn; lia).
  destruct (net.incoming r) as [| seg segs] eqn:Hin.
  - rewrite (Read_at_end r (skipn n buf) Hopen) by (assumption || lia).
    rewrite read_loop_done
      by (cbn [io.is_nil]; apply andb_false_r).
    unfold net.pending. rewrite Hin. cbn [concat length].
    rewrite Nat.add_0_r. eexists. eexists. split; [reflexivity |].
    split; [| repeat split].
    cbn [net.called net.incoming]. now rewrite Hin.
  - assert (Hp : net.pending r = seg ++ concat segs)
      by (unfold net.pending; now rewrite Hin).
    rewrite Hp, length_app in Hshort.
    rewrite (Read_segment r (skipn n buf) seg segs Hopen) by (assumption || lia).
    rewrite Hlen. replace (Nat.min (min - n) (length seg)) with (length seg) by lia.
    destruct (IH (took r (min - n) (length seg) seg segs)
                 (firstn n buf
                    ++ firstn (length seg) seg ++ skipn (length seg) (skipn n buf))
                 min (n + length seg)%nat) as (r' & buf' & Hrun & Hp' & Hs).
    + destruct (took_after_reads r (min - n) (length seg) seg segs) as (Hc & _).
      now rewrite Hc.
    + rewrite !length_app, !length_firstn, !length_skipn. lia.
    + rewrite took_pending, skipn_all. cbn [app]. lia.
    + rewrite took_whole_segment. simpl in Hfuel. lia.
    + exists r', buf'. rewrite Hrun.
      rewrite took_pending, skipn_all. cbn [app].
      rewrite Hp, length_app, Nat.add_assoc.
      destruct (took_after_reads r (min - n) (length seg) seg segs)
        as (_ & He & _).
      rewrite He. split; [reflexivity |]. split; [exact Hp' |].
      eapply after_reads_trans; [apply took_after_reads | exact Hs].
Qed.

Lemma ReadFull_short (r : net.Conn) (buf : list byte) :
  net.is_closed r = false ->
  (length (net.pending r) < length buf)%nat ->
  exists r' buf',
    io.ReadFull buf r
    = Returned (length (net.pending r),
                Some (short_read_error (length (net.pending r)) (net.at_end r)),
                buf') r'
    /\ net.pending r' = []
    /\ after_reads r r'.
Proof.
  intros Hopen Hshort.
  destruct (read_loop_short (io.read_fuel r) r buf (length buf) 0)
    as (r' & buf' & Hrun & Hp & Hs); try assumption; try reflexivity.
  - unfold io.read_fuel. lia.
  - exists r', buf'. unfold io.ReadFull, io.ReadAtLeast.
    rewrite Nat.ltb_irrefl, Hrun. cbn [Nat.add].
    destruct (Nat.leb_spec (length buf) (length (net.pending r))) as [? | _];
      [lia |].
    split; [| split; assumption].
    destruct (length (net.pending r)) as [| k]; [reflexivity |].
    destruct (net.at_end r); reflexivity.
Qed.

(** ** Running computations *)

Lemma bind_Returned {S A B} (m : IO S A) (k : A -> IO S B) (s s' : S) (a : A) :
  m s = Returned a s' -> bind m k s = k a s'.
Proof. intros H. unfold bind. now rewrite H. Qed.

Lemma bind_Panicked {S A B} (m : IO S A) (k : A -> IO S B) (s s' : S) msg :
  m s = Panicked msg s' -> bind m k s = Panicked msg s'.
Proof. intros H. unfold bind. now rewrite H. Qed.

Lemma make_nonneg {S} (n : Z) (s : S) :
  0 <= n -> make n s = Returned (repeat x00 (Z.to_nat n)) s.
Proof.
  intros H. unfold make. destruct (Z.ltb_spec n 0); [lia | reflexivity].
Qed.

Lemma make_negative {S} (n : Z) (s : S) :
  n < 0 -> @make S n s = Panicked "makeslice: len out of range" s.
Proof.
  intros H. unfold make. destruct (Z.ltb_spec n 0); [reflexivity | lia].
Qed.

Lemma slice_all (s : list byte) : slice s 0 (length s) = s.
Proof. unfold slice. rewrite Nat.sub_0_r. apply firstn_all. Qed.

(** *** The read loop ends

    The fuel that [io.ReadAtLeast] gives its loop is enough: a [Read] after
    which the loop goes on has used up a segment. *)

Lemma Read_length (r r' : net.Conn) (b b' : list byte) nn err :
  net.Read r b = (nn, err, b', r') -> length b' = length b.
Proof.
  unfold net.Read. cbn [net.called net.is_closed net.incoming].
  destruct (net.is_closed r).
  { intros H. now injection H as _ _ <- _. }
  destruct (length b =? 0)%nat.
  { intros H. now injection H as _ _ <- _. }
  destruct (net.incoming r) as [| seg segs].
  { intros H. now injection H as _ _ <- _. }
  unfold copy. intros H. injection H as _ _ <- _.
  rewrite length_app, length_skipn, length_firstn. lia.
Qed.

Lemma Read_partial_consumes (r r' : net.Conn) (b b' : list byte) nn :
  net.Read r b = (nn, None, b', r') ->
  (nn < length b)%nat ->
  S (length (net.incoming r')) = length (net.incoming r).
Proof.
  unfold net.Read. cbn [net.called net.is_closed net.incoming].
  destruct (net.is_closed r); [discriminate |].
  destruct (Nat.eqb_spec (length b) 0) as [E | E].
  { intros H Hnn. lia. }
  destruct (net.incoming r) as [| seg segs]; [discriminate |].
  unfold copy. rewrite length_firstn. intros H Hnn.
  injection H as <- _ <-.
  rewrite skipn_all2 by lia. reflexivity.
Qed.

Lemma read_loop_returns (fuel : nat) :
  forall (r : net.Conn) (buf : list byte) (min n : nat) (err : option error),
    (min <= length buf)%nat ->
    ((n < min)%nat -> err = None -> (length (net.incoming r) < fuel)%nat) ->
    exists res, io.read_loop fuel r buf min n err = Some res.
Proof.
  induction fuel as [| fuel IH]; intros r buf min n err Hbuf Hfuel;
    cbn [io.read_loop];
    destruct ((n <? min)%nat && io.is_nil err) eqn:Hgo;
    try (eexists; reflexivity);
    apply andb_prop in Hgo as [Hlt Hnil];
    apply Nat.ltb_lt in Hlt;
    (destruct err; [discriminate |]);
    specialize (Hfuel Hlt eq_refl).
  - lia.
  - destruct (net.Read r (skipn n buf)) as [[[nn err'] tail] r'] eqn:HR.
    pose proof (Read_length _ _ _ _ _ _ HR) as Htail.
    rewrite length_skipn in Htail.
    apply IH.
    + rewrite length_app, length_firstn. lia.
    + intros Hmore ->.
      apply Read_partial_consumes in HR; [lia |].
      rewrite length_skipn. lia.
Qed.

(** [io.ReadFull] returns on every connection and for every buffer. *)
Lemma ReadFull_returns (buf : list byte) (r : net.Conn) :
  exists res r', io.ReadFull buf r = Returned res r'.
Proof.
  unfold io.ReadFull, io.ReadAtLeast. rewrite Nat.ltb_irrefl.
  destruct (read_loop_returns (io.read_fuel r) r buf (length buf) 0 None)
    as ([[[n err] buf'] r'] & Hrun).
  - lia.
  - intros _ _. unfold io.read_fuel. lia.
  - rewrite Hrun. eexists. eexists. reflexivity.
Qed.

(** The framing functions return or panic on every connection. *)
Lemma ReceiveStartupMessage_ends (r : net.Conn) :
  ReceiveStartupMessage r <> Diverged.
Proof.
  unfold ReceiveStartupMessage.
  rewrite (bind_Returned _ _ r r (repeat x00 4)) by reflexivity.
  destruct (ReadFull_returns (repeat x00 4) r) as ([[n1 e1] h] & r1 & H1).
  rewrite (bind_Returned _ _ _ _ _ H1). cbv beta iota.
  destruct e1; [discriminate |].
  unfold bind at 1. unfold make.
  destruct (_ <? 0); [discriminate |]. unfold ret at 1.
  destruct (ReadFull_returns
              (repeat x00 (Z.to_nat (int_sub (int_of_uint32
                 (binary.BigEndian_Uint32 (slice h 0 (length h)))) 4))) r1)
    as ([[n2 e2] p] & r2 & H2).
  rewrite (bind_Returned _ _ _ _ _ H2). cbv beta iota.
  destruct e2; discriminate.
Qed.

Lemma Receive_ends (r : net.Conn) : Receive r <> Diverged.
Proof.
  unfold Receive.
  rewrite (bind_Returned _ _ r r (repeat x00 5)) by reflexivity.
  destruct (ReadFull_returns (repeat x00 5) r) as ([[n1 e1] h] & r1 & H1).
  rewrite (bind_Returned _ _ _ _ _ H1). cbv beta iota.
  destruct e1; [discriminate |].
  unfold bind at 1. unfold make.
  destruct (_ <? 0); [discriminate |]. unfold ret at 1.
  destruct (ReadFull_returns
              (repeat x00 (Z.to_nat (int_sub (int_of_uint32
                 (binary.BigEndian_Uint32 (slice h 1 5))) 4))) r1)
    as ([[n2 e2] p] & r2 & H2).
  rewrite (bind_Returned _ _ _ _ _ H2). cbv beta iota.
  destruct e2; discriminate.
Qed.

(** ** Framing: well-formed messages *)

(** A startup message: the header [header] encodes the length, [payload]
    are the bytes that follow it. *)
Lemma ReceiveStartupMessage_frame (r : net.Conn) (header payload rest : list byte) :
  net.is_closed r = false ->
  net.pending r = header ++ payload ++ rest ->
  length header = 4%nat ->
  Z.of_nat (length payload) = binary.BigEndian_Uint32 header - 4 ->
  exists r',
    ReceiveStartupMessage r
    = Returned (header ++ payload, binary.BigEndian_Uint32 header, None) r'
    /\ net.pending r' = rest
    /\ after_reads r r'.
Proof.
  intros Hopen Hpend Hh Hp.
  pose proof (BigEndian_Uint32_range header) as HL.
  assert (Hsize : 0 <= binary.BigEndian_Uint32 header - 4) by lia.
  destruct (ReadFull_fills r (repeat x00 4) header (payload ++ rest))
    as (r1 & Hrun1 & Hpend1 & Hs1); try assumption.
  { now rewrite repeat_length. }
  destruct (ReadFull_fills r1
              (repeat x00 (Z.to_nat (binary.BigEndian_Uint32 header - 4)))
              payload rest)
    as (r2 & Hrun2 & Hpend2 & Hs2); try assumption.
  { destruct Hs1 as (Hc & _). now rewrite Hc. }
  { rewrite repeat_length. lia. }
  exists r2. unfold ReceiveStartupMessage.
  rewrite (bind_Returned _ _ r r (repeat x00 4)) by reflexivity.
  rewrite (bind_Returned _ _ _ _ _ Hrun1).
  cbv beta iota. rewrite slice_all, payload_size_exact by assumption.
  rewrite (bind_Returned _ _ r1 r1 _ (make_nonneg _ r1 Hsize)).
  rewrite (bind_Returned _ _ _ _ _ Hrun2). cbv beta iota.
  unfold ret. rewrite Buffer_Len_Bytes, Buffer_two_writes.
  split; [| split; [assumption | eapply after_reads_trans; eassumption]].
  do 3 f_equal. rewrite length_app. lia.
Qed.

(** A regular message: one type byte, the encoded length, the payload. *)
Lemma Receive_frame (r : net.Conn) (type : byte) (len payload rest : list byte) :
  net.is_closed r = false ->
  net.pending r = (type :: len) ++ payload ++ rest ->
  length len = 4%nat ->
  Z.of_nat (length payload) = binary.BigEndian_Uint32 len - 4 ->
  exists r',
    Receive r
    = Returned ((type :: len) ++ payload,
                5 + (binary.BigEndian_Uint32 len - 4), None) r'
    /\ net.pending r' = rest
    /\ after_reads r r'.
Proof.
  intros Hopen Hpend Hh Hp.
  pose proof (BigEndian_Uint32_range len) as HL.
  assert (Hsize : 0 <= binary.BigEndian_Uint32 len - 4) by lia.
  destruct (ReadFull_fills r (repeat x00 5) (type :: len) (payload ++ rest))
    as (r1 & Hrun1 & Hpend1 & Hs1); try assumption.
  { rewrite repeat_length. cbn [length]. now rewrite Hh. }
  destruct (ReadFull_fills r1
              (repeat x00 (Z.to_nat (binary.BigEndian_Uint32 len - 4)))
              payload rest)
    as (r2 & Hrun2 & Hpend2 & Hs2); try assumption.
  { destruct Hs1 as (Hc & _). now rewrite Hc. }
  { rewrite repeat_length. lia. }
  assert (Hslice : slice (type :: len) 1 5 = len).
  { unfold slice. cbn [skipn Nat.sub]. rewrite <- Hh. apply firstn_all. }
  exists r2. unfold Receive.
  rewrite (bind_Returned _ _ r r (repeat x00 5)) by reflexivity.
  rewrite (bind_Returned _ _ _ _ _ Hrun1).
  cbv beta iota. rewrite Hslice, payload_size_exact by assumption.
  rewrite (bind_Returned _ _ r1 r1 _ (make_nonneg _ r1 Hsize)).
  rewrite (bind_Returned _ _ _ _ _ Hrun2). cbv beta iota.
  unfold ret. rewrite Buffer_Len_Bytes, Buffer_two_writes.
  split; [| split; [assumption | eapply after_reads_trans; eassumption]].
  do 3 f_equal. rewrite length_app. cbn [length]. lia.
Qed.

(** ** Framing: lengths below four *)

(** A startup header whose length field is below four makes the payload
    size negative, and the allocation of the payload panics. *)
Lemma ReceiveStartupMessage_short_length (r : net.Conn) (header rest : list byte) :
  net.is_closed r = false ->
  net.pending r = header ++ rest ->
  length header = 4%nat ->
  binary.BigEndian_Uint32 header < 4 ->
  exists r',
    ReceiveStartupMessage r = Panicked "makeslice: len out of range" r'
    /\ net.pending r' = rest.
Proof.
  intros Hopen Hpend Hh HL4.
  pose proof (BigEndian_Uint32_range header) as HL.
  destruct (ReadFull_fills r (repeat x00 4) header rest)
    as (r1 & Hrun1 & Hpend1 & Hs1); try assumption.
  { now rewrite repeat_length. }
  exists r1. split; [| assumption]. unfold ReceiveStartupMessage.
  rewrite (bind_Returned _ _ r r (repeat x00 4)) by reflexivity.
  rewrite (bind_Returned _ _ _ _ _ Hrun1).
  cbv beta iota. rewrite slice_all, payload_size_exact by assumption.
  apply bind_Panicked. apply make_negative. lia.
Qed.

Lemma Receive_short_length (r : net.Conn) (type : byte) (len rest : list byte) :
  net.is_closed r = false ->
  net.pending r = (type :: len) ++ rest ->
  length len = 4%nat ->
  binary.BigEndian_Uint32 len < 4 ->
  exists r',
    Receive r = Panicked "makeslice: len out of range" r'
    /\ net.pending r' = rest.
Proof.
  intros Hopen Hpend Hh HL4.
  pose proof (BigEndian_Uint32_range len) as HL.
  destruct (ReadFull_fills r (repeat x00 5) (type :: len) rest)
    as (r1 & Hrun1 & Hpend1 & Hs1); try assumption.
  { rewrite repeat_length. cbn [length]. now rewrite Hh. }
  assert (Hslice : slice (type :: len) 1 5 = len).
  { unfold slice. cbn [skipn Nat.sub]. rewrite <- Hh. apply firstn_all. }
  exists r1. split; [| assumption]. unfold Receive.
  rewrite (bind_Returned _ _ r r (repeat x00 5)) by reflexivity.
  rewrite (bind_Returned _ _ _ _ _ Hrun1).
  cbv beta iota. rewrite Hslice, payload_size_exact by assumption.
  apply bind_Panicked. apply make_negative. lia.
Qed.

(** ** Framing: truncated streams *)

(** [Receive] passes on the count of payload bytes that were read. *)
Lemma Receive_truncated (r : net.Conn) (type : byte) (len partial : list byte) :
  net.is_closed r = false ->
  net.pending r = (type :: len) ++ partial ->
  length len = 4%nat ->
  Z.of_nat (length partial) < binary.BigEndian_Uint32 len - 4 ->
  exists r',
    Receive r
    = Returned ([], Z.of_nat (length partial),
                Some (short_read_error (length partial) (net.at_end r))) r'.
Proof.
  intros Hopen Hpend Hh Hp.
  pose proof (BigEndian_Uint32_range len) as HL.
  assert (Hsize : 0 <= binary.BigEndian_Uint32 len - 4) by lia.
  destruct (ReadFull_fills r (repeat x00 5) (type :: len) partial)
    as (r1 & Hrun1 & Hpend1 & Hc1 & He1 & _); try assumption.
  { rewrite repeat_length. cbn [length]. now rewrite Hh. }
  destruct (ReadFull_short r1
              (repeat x00 (Z.to_nat (binary.BigEndian_Uint32 len - 4))))
    as (r2 & buf2 & Hrun2 & _).
  { now rewrite Hc1. }
  { rewrite repeat_length, Hpend1. lia. }
  assert (Hslice : slice (type :: len) 1 5 = len).
  { unfold slice. cbn [skipn Nat.sub]. rewrite <- Hh. apply firstn_all. }
  exists r2. unfold Receive.
  rewrite (bind_Returned _ _ r r (repeat x00 5)) by reflexivity.
  rewrite (bind_Returned _ _ _ _ _ Hrun1).
  cbv beta iota. rewrite Hslice, payload_size_exact by assumption.
  rewrite (bind_Returned _ _ r1 r1 _ (make_nonneg _ r1 Hsize)).
  rewrite (bind_Returned _ _ _ _ _ Hrun2). cbv beta iota.
  now rewrite Hpend1, He1.
Qed.

(** [ReceiveStartupMessage] reports the count zero, whatever was read. *)
Lemma ReceiveStartupMessage_truncated (r : net.Conn) (header partial : list byte) :
  net.is_closed r = false ->
  net.pending r = header ++ partial ->
  length header = 4%nat ->
  Z.of_nat (length partial) < binary.BigEndian_Uint32 header - 4 ->
  exists r',
    ReceiveStartupMessage r
    = Returned ([], 0,
                Some (short_read_error (length partial) (net.at_end r))) r'.
Proof.
  intros Hopen Hpend Hh Hp.
  pose proof (BigEndian_Uint32_range header) as HL.
  assert (Hsize : 0 <= binary.BigEndian_Uint32 header - 4) by lia.
  destruct (ReadFull_fills r (repeat x00 4) header partial)
    as (r1 & Hrun1 & Hpend1 & Hc1 & He1 & _); try assumption.
  { now rewrite repeat_length. }
  destruct (ReadFull_short r1
              (repeat x00 (Z.to_nat (binary.BigEndian_Uint32 header - 4))))
    as (r2 & buf2 & Hrun2 & _).
  { now rewrite Hc1. }
  { rewrite repeat_length, Hpend1. lia. }
  exists r2. unfold ReceiveStartupMessage.
  rewrite (bind_Returned _ _ r r (repeat x00 4)) by reflexivity.
  rewrite (bind_Returned _ _ _ _ _ Hrun1).
  cbv beta iota. rewrite slice_all, payload_size_exact by assumption.
  rewrite (bind_Returned _ _ r1 r1 _ (make_nonneg _ r1 Hsize)).
  rewrite (bind_Returned _ _ _ _ _ Hrun2). cbv beta iota.
  now rewrite Hpend1, He1.
Qed.

(** ** Framing: the shape of a successful return *)

(** Both results of a successful call come from one [bytes.Buffer], into
    which the header and the payload have been written. *)
Lemma ReceiveStartupMessage_success
      (r r' : net.Conn) (message : list byte) (n : Z) :
  ReceiveStartupMessage r = Returned (message, n, None) r' ->
  exists header payload,
    message = bytes.Bytes (bytes.Write (bytes.Write bytes.empty header) payload)
    /\ n = bytes.Len (bytes.Write (bytes.Write bytes.empty header) payload).
Proof.
  unfold ReceiveStartupMessage. intros H.
  rewrite (bind_Returned _ _ r r (repeat x00 4)) in H by reflexivity.
  destruct (ReadFull_returns (repeat x00 4) r) as ([[n1 e1] h] & r1 & H1).
  rewrite (bind_Returned _ _ _ _ _ H1) in H. cbv beta iota in H.
  destruct e1; [discriminate |].
  set (size := int_sub _ 4) in H.
  destruct (Z.ltb_spec size 0) as [Hneg | Hpos].
  { rewrite (bind_Panicked _ _ _ _ _ (make_negative size r1 Hneg)) in H.
    discriminate. }
  rewrite (bind_Returned _ _ _ _ _ (make_nonneg size r1 Hpos)) in H.
  destruct (ReadFull_returns (repeat x00 (Z.to_nat size)) r1)
    as ([[n2 e2] p] & r2 & H2).
  rewrite (bind_Returned _ _ _ _ _ H2) in H. cbv beta iota in H.
  destruct e2; [discriminate |].
  unfold ret in H. injection H as <- <- _.
  exists h, p. split; reflexivity.
Qed.

Lemma Receive_success (r r' : net.Conn) (message : list byte) (n : Z) :
  Receive r = Returned (message, n, None) r' ->
  exists header payload,
    message = bytes.Bytes (bytes.Write (bytes.Write bytes.empty header) payload)
    /\ n = bytes.Len (bytes.Write (bytes.Write bytes.empty header) payload).
Proof.
  unfold Receive. intros H.
  rewrite (bind_Returned _ _ r r (repeat x00 5)) in H by reflexivity.
  destruct (ReadFull_returns (repeat x00 5) r) as ([[n1 e1] h] & r1 & H1).
  rewrite (bind_Returned _ _ _ _ _ H1) in H. cbv beta iota in H.
  destruct e1; [discriminate |].
  set (size := int_sub _ 4) in H.
  destruct (Z.ltb_spec size 0) as [Hneg | Hpos].
  { rewrite (bind_Panicked _ _ _ _ _ (make_negative size r1 Hneg)) in H.
    discriminate. }
  rewrite (bind_Returned _ _ _ _ _ (make_nonneg size r1 Hpos)) in H.
  destruct (ReadFull_returns (repeat x00 (Z.to_nat size)) r1)
    as ([[n2 e2] p] & r2 & H2).
  rewrite (bind_Returned _ _ _ _ _ H2) in H. cbv beta iota in H.
  destruct e2; [discriminate |].
  unfold ret in H. injection H as <- <- _.
  exists h, p. split; reflexivity.
Qed.

(** ** Framing: the main theorems *)

(** C3.  On a stream that starts with a regular message (a type byte, a
    big-endian length [L >= 4] and [L - 4] payload bytes), [Receive] returns
    with a nil error the five header bytes followed by the [L - 4] payload
    bytes, reports the length [5 + (L - 4)], and leaves the rest of the
    stream unread. *)
Theorem Receive_well_formed
        (r : net.Conn) (type : byte) (len payload rest : list byte) :
  let L := binary.BigEndian_Uint32 len in
  net.is_closed r = false ->
  length len = 4%nat ->
  4 <= L ->
  length payload = Z.to_nat (L - 4) ->
  net.pending r = (type :: len) ++ payload ++ rest ->
  exists r',
    Receive r = Returned ((type :: len) ++ payload, 5 + (L - 4), None) r'
    /\ length ((type :: len) ++ payload) = (5 + Z.to_nat (L - 4))%nat
    /\ net.pending r' = rest.
Proof.
  intros L Hopen Hlen HL Hpayload Hpend.
  destruct (Receive_frame r type len payload rest) as (r' & Hrun & Hrest & _);
    try assumption.
  { fold L. lia. }
  exists r'. split; [exact Hrun |]. split; [| exact Hrest].
  rewrite length_app. cbn [length]. lia.
Qed.

Lemma Receive_well_formed_witness :
  exists r',
    Receive sample_regular
    = Returned (["Q"%byte; x00; x00; x00; x08; x01; x02; x03; x04], 9, None) r'
    /\ length ["Q"%byte; x00; x00; x00; x08; x01; x02; x03; x04] = 9%nat
    /\ net.pending r' = [x05].
Proof.
  apply (Receive_well_formed sample_regular "Q"%byte
           [x00; x00; x00; x08] [x01; x02; x03; x04] [x05]).
  - reflexivity.
  - reflexivity.
  - vm_compute. discriminate.
  - reflexivity.
  - reflexivity.
Defined.

(** C4.  On a stream that starts with a startup message (a big-endian
    length [L >= 4] and [L - 4] payload bytes), [ReceiveStartupMessage]
    returns with a nil error the four header bytes followed by the [L - 4]
    payload bytes, reports the length [L], and leaves the rest of the stream
    unread. *)
Theorem ReceiveStartupMessage_well_formed
        (r : net.Conn) (header payload rest : list byte) :
  let L := binary.BigEndian_Uint32 header in
  net.is_closed r = false ->
  length header = 4%nat ->
  4 <= L ->
  length payload = Z.to_nat (L - 4) ->
  net.pending r = header ++ payload ++ rest ->
  exists r',
    ReceiveStartupMessage r = Returned (header ++ payload, L, None) r'
    /\ Z.of_nat (length (header ++ payload)) = L
    /\ net.pending r' = rest.
Proof.
  intros L Hopen Hlen HL Hpayload Hpend.
  destruct (ReceiveStartupMessage_frame r header payload rest)
    as (r' & Hrun & Hrest & _); try assumption.
  { fold L. lia. }
  exists r'. split; [exact Hrun |]. split; [| exact Hrest].
  rewrite length_app. lia.
Qed.

Lemma ReceiveStartupMessage_well_formed_witness :
  exists r',
    ReceiveStartupMessage sample_startup
    = Returned ([x00; x00; x00; x08; x01; x02; x03; x04], 8, None) r'
    /\ Z.of_nat (length [x00; x00; x00; x08; x01; x02; x03; x04]) = 8
    /\ net.pending r' = [x05].
Proof.
  apply (ReceiveStartupMessage_well_formed sample_startup
           [x00; x00; x00; x08] [x01; x02; x03; x04] [x05]).
  - reflexivity.
  - reflexivity.
  - vm_compute. discriminate.
  - reflexivity.
  - reflexivity.
Defined.

(** C2.  A header whose length field is at most four should give the
    header alone with a nil error, after a payload read of zero bytes.  With
    the length field three both framing functions panic when they allocate
    the payload; with the length field four they return the header alone. *)
Theorem length_below_four_panics :
  (exists r',
      ReceiveStartupMessage (fresh_conn [[x00; x00; x00; x03]] EOF)
      = Panicked "makeslice: len out of range" r')
  /\ (exists r',
         Receive (fresh_conn [["Q"%byte; x00; x00; x00; x03]] EOF)
         = Panicked "makeslice: len out of range" r')
  /\ (exists r',
         ReceiveStartupMessage (fresh_conn [[x00; x00; x00; x04]] EOF)
         = Returned ([x00; x00; x00; x04], 4, None) r')
  /\ (exists r',
         Receive (fresh_conn [["Q"%byte; x00; x00; x00; x04]] EOF)
         = Returned (["Q"%byte; x00; x00; x00; x04], 5, None) r').
Proof.
  repeat split; eexists; vm_compute; reflexivity.
Qed.

(** C5.  On a stream that ends before the payload is complete the count of
    bytes read should be reported alongside the incomplete-read error.  On a
    stream that ends two bytes into a payload of four,
    [ReceiveStartupMessage] reports the count zero; [Receive] reports the
    two bytes. *)
Theorem ReceiveStartupMessage_drops_partial_count :
  (exists r',
      ReceiveStartupMessage (fresh_conn [[x00; x00; x00; x08; x01; x02]] EOF)
      = Returned ([], 0, Some ErrUnexpectedEOF) r')
  /\ (exists r',
         Receive (fresh_conn [["Q"%byte; x00; x00; x00; x08; x01; x02]] EOF)
         = Returned ([], 2, Some ErrUnexpectedEOF) r').
Proof.
  split; eexists; vm_compute; reflexivity.
Qed.

(** C9.  When a framing function returns a nil error, the integer it
    returns is the length of the slice it returns. *)
Theorem returned_length_matches
        (r r' : net.Conn) (message : list byte) (n : Z) :
  ReceiveStartupMessage r = Returned (message, n, None) r'
  \/ Receive r = Returned (message, n, None) r' ->
  n = Z.of_nat (length message).
Proof.
  intros [H | H].
  - apply ReceiveStartupMessage_success in H as (header & payload & -> & ->).
    apply Buffer_Len_Bytes.
  - apply Receive_success in H as (header & payload & -> & ->).
    apply Buffer_Len_Bytes.
Qed.

Lemma returned_length_matches_witness :
  8 = Z.of_nat (length [x00; x00; x00; x08; x01; x02; x03; x04])
  /\ 9 = Z.of_nat (length ["Q"%byte; x00; x00; x00; x08; x01; x02; x03; x04]).
Proof.
  split.
  - eapply (returned_length_matches sample_startup).
    left. vm_compute. reflexivity.
  - eapply (returned_length_matches sample_regular).
    right. vm_compute. reflexivity.
Defined.

(** ** The SSL request *)

Lemma ssl_request_bytes (code : Z) :
  ssl_request code
  = [x00; x00; x00; x08] ++ binary.BigEndian_PutUint32 (wrap_uint32 code).
Proof. reflexivity. Qed.

(** C7.  Round trip: [ReceiveStartupMessage], run on a stream that delivers
    the SSL request built by [Connect], returns the request with the length
    8 and a nil error; the payload is the four bytes of the SSL-request code
    and decodes to that code. *)
Theorem ssl_request_round_trip (code : Z) (r : net.Conn) (rest : list byte) :
  net.is_closed r = false ->
  net.pending r = ssl_request code ++ rest ->
  exists r',
    ReceiveStartupMessage r = Returned (ssl_request code, 8, None) r'
    /\ skipn 4 (ssl_request code)
       = binary.BigEndian_PutUint32 (wrap_uint32 code)
    /\ binary.BigEndian_Uint32 (skipn 4 (ssl_request code)) = wrap_uint32 code
    /\ net.pending r' = rest.
Proof.
  intros Hopen Hpend. rewrite ssl_request_bytes in *.
  rewrite <- app_assoc in Hpend.
  destruct (ReceiveStartupMessage_frame r [x00; x00; x00; x08]
              (binary.BigEndian_PutUint32 (wrap_uint32 code)) rest)
    as (r' & Hrun & Hrest & _); try assumption; try reflexivity.
  exists r'. split; [exact Hrun |]. split; [reflexivity |].
  split; [| exact Hrest].
  cbn [skipn app]. apply BigEndian_Uint32_PutUint32, wrap_uint32_range.
Qed.

Lemma ssl_request_round_trip_witness :
  exists r',
    ReceiveStartupMessage
      (fresh_conn [[x00; x00; x00]; [x08; x04; xd2]; [x16; x2f]] EOF)
    = Returned (ssl_request postgres_SSLRequestCode, 8, None) r'
    /\ skipn 4 (ssl_request postgres_SSLRequestCode)
       = binary.BigEndian_PutUint32 (wrap_uint32 postgres_SSLRequestCode)
    /\ binary.BigEndian_Uint32 (skipn 4 (ssl_request postgres_SSLRequestCode))
       = wrap_uint32 postgres_SSLRequestCode
    /\ net.pending r' = [].
Proof.
  apply (ssl_request_round_trip postgres_SSLRequestCode
           (fresh_conn [[x00; x00; x00]; [x08; x04; xd2]; [x16; x2f]] EOF) []).
  - reflexivity.
  - reflexivity.
Defined.

(** ** The world: sockets behind handles *)

Lemma store_last (l : list net.Conn) (c c' : net.Conn) :
  store (l ++ [c]) (length l) c' = l ++ [c'].
Proof.
  unfold store.
  rewrite firstn_prefix, firstn_all by lia.
  replace (S (length l)) with (length (l ++ [c]))
    by (rewrite length_app; simpl; lia).
  now rewrite skipn_all.
Qed.

(** A method call on the socket opened last. *)
Lemma on_last {A} (method : net.Conn -> A * net.Conn)
      nw st (l : list net.Conn) sk (c c' : net.Conn) (a : A) :
  method c = (a, c') ->
  on (Some (length l)) method (mkWorld nw st (l ++ [c]) sk)
  = Returned a (mkWorld nw st (l ++ [c']) sk).
Proof.
  intros H. unfold on. cbn [sockets].
  rewrite nth_error_app2, Nat.sub_diag by lia. cbn [nth_error].
  rewrite H. unfold with_sockets. cbn [network settings sockets sink].
  now rewrite store_last.
Qed.

Lemma make_response {S} (s : S) : make 4096 s = Returned (repeat x00 4096) s.
Proof. reflexivity. Qed.

(** ** [net.Conn]: what a call leaves behind *)

Lemma Write_calls (c c' : net.Conn) (p : list byte) n err :
  net.Write c p = (n, err, c') -> net.calls c' = net.calls c ++ [net.CallWrite p].
Proof.
  unfold net.Write. cbn [net.called net.is_closed net.write_error net.calls].
  destruct (net.is_closed c); [| destruct (net.write_error c)];
    intros H; injection H as _ _ <-; reflexivity.
Qed.

Lemma Read_calls (c c' : net.Conn) (b b' : list byte) n err :
  net.Read c b = (n, err, b', c') ->
  net.calls c' = net.calls c ++ [net.CallRead (length b)].
Proof.
  unfold net.Read. cbn [net.called net.is_closed net.incoming net.calls].
  destruct (net.is_closed c); [| destruct (length b =? 0)%nat;
                                 [| destruct (net.incoming c)]];
    intros H; injection H as _ _ _ <-; reflexivity.
Qed.

Lemma Close_closes (c : net.Conn) : net.is_closed (snd (net.Close c)) = true.
Proof.
  unfold net.Close. cbn [net.called net.is_closed].
  destruct (net.is_closed c) eqn:E; cbn [snd net.is_closed]; [exact E | reflexivity].
Qed.

Lemma Close_calls (c : net.Conn) :
  net.calls (snd (net.Close c)) = net.calls c ++ [net.CallClose].
Proof.
  unfold net.Close. cbn [net.called net.is_closed].
  destruct (net.is_closed c); reflexivity.
Qed.

(** A successful [Read] stores in front of the buffer the bytes it took
    from the first segment and leaves the other bytes as they were. *)
Lemma Read_ok_buffer (c c' : net.Conn) (b b' : list byte) (n : nat) :
  net.Read c b = (n, None, b', c') ->
  net.is_closed c = false
  /\ exists data,
      b' = data ++ skipn n b
      /\ length data = n
      /\ (n <= length b)%nat
      /\ (data = []
          \/ exists left segs, net.incoming c = (data ++ left) :: segs).
Proof.
  unfold net.Read. cbn [net.called net.is_closed net.incoming].
  destruct (net.is_closed c); [discriminate |].
  destruct (Nat.eqb_spec (length b) 0) as [E | E].
  { intros H. injection H as <- <- _. split; [reflexivity |].
    exists []. repeat split; try lia. now left. }
  destruct (net.incoming c) as [| seg segs]; [discriminate |].
  unfold copy. intros H. injection H as <- <- _. split; [reflexivity |].
  exists (firstn (length b) seg). split; [reflexivity |].
  split; [reflexivity |]. split; [rewrite length_firstn; lia |].
  right. exists (skipn (length b) seg), segs. now rewrite firstn_skipn.
Qed.

Lemma Read_ok_open (c c' : net.Conn) (b b' : list byte) (n : nat) :
  net.Read c b = (n, None, b', c') -> net.is_closed c' = false.
Proof.
  unfold net.Read. cbn [net.called net.is_closed net.incoming].
  destruct (net.is_closed c) eqn:E; [discriminate |].
  destruct (length b =? 0)%nat.
  { intros H. injection H as _ _ <-. exact E. }
  destruct (net.incoming c) as [| seg segs]; [discriminate |].
  unfold copy. intros H. injection H as _ _ <-. exact E.
Qed.

(** ** SSL negotiation *)

(** The condition on which [Connect] closes the connection, and the outcome
    the specification reads off the response, agree. *)
Lemma rejection_test (c c' : net.Conn) (response : list byte) (n : nat) :
  net.Read c (repeat x00 4096) = (n, None, response, c') ->
  (0 <? length response)%nat && negb (Byte.eqb (index response 0) "S"%byte)
  = match spec_outcome (firstn n response) with
    | Rejected => true
    | Allowed => false
    end.
Proof.
  intros H. apply Read_ok_buffer in H as (_ & data & -> & Hn & Hle & _).
  rewrite repeat_length in Hle.
  assert (Hlen : length (data ++ skipn n (repeat x00 4096)) = 4096%nat)
    by (rewrite length_app, length_skipn, repeat_length; lia).
  rewrite Hlen. change (0 <? 4096)%nat with true. cbn [andb].
  rewrite firstn_prefix, firstn_all2 by lia.
  destruct data as [| d ds].
  - cbn [length] in Hn. subst n.
    change (repeat x00 4096) with (x00 :: repeat x00 4095). reflexivity.
  - cbn [app index nth spec_outcome].
    destruct (Byte.eqb d "S"%byte); reflexivity.
Qed.

Section ConnectorProperties.

Variable code : Z.
Variable upgrade : string -> handle -> IO World handle.

Lemma Connect_dialled (host : string) nw st l sk (c : net.Conn) :
  nw "tcp" host = inl c ->
  net_Dial "tcp" host (mkWorld nw st l sk)
  = Returned (Some (length l), None) (mkWorld nw st (l ++ [c]) sk).
Proof.
  intros H. unfold net_Dial. cbn [network sockets]. now rewrite H.
Qed.

(** C10.  With SSL switched off and a successful dial, [Connect] returns
    the handle of the new socket and a nil error; the socket is in the state
    in which it was dialled (no call has been made on it) and nothing else
    in the world has changed. *)
Theorem Connect_without_ssl (host : string) (w : World) (c : net.Conn) :
  network w "tcp" host = inl c ->
  settings w "credentials.ssl.enable" = false ->
  Connect code upgrade host w
  = Returned (Some (length (sockets w)), None)
             (mkWorld (network w) (settings w) (sockets w ++ [c]) (sink w)).
Proof.
  destruct w as [nw st l sk]. cbn [network settings sockets sink].
  intros Hdial Hssl. unfold Connect.
  rewrite (bind_Returned _ _ _ _ _ (Connect_dialled host nw st l sk c Hdial)).
  cbv beta iota.
  erewrite bind_Returned by reflexivity.
  cbn [settings]. now rewrite Hssl.
Qed.

(** C8.  With SSL switched on, when the write of the SSL request fails, or
    the write succeeds and the read of the response fails, [Connect] returns
    a nil handle and that error; it has made one [Write] and at most one
    [Read] on the socket. *)
Theorem Connect_io_failure
        (host : string) (w : World) (c c' : net.Conn) (e : error) :
  network w "tcp" host = inl c ->
  settings w "credentials.ssl.enable" = true ->
  (exists n, net.Write c (ssl_request code) = (n, Some e, c'))
  \/ (exists n1 c1 n2 response,
         net.Write c (ssl_request code) = (n1, None, c1)
         /\ net.Read c1 (repeat x00 4096) = (n2, Some e, response, c')) ->
  exists w',
    Connect code upgrade host w = Returned (None, Some e) w'
    /\ sockets w' = sockets w ++ [c']
    /\ (net.calls c' = net.calls c ++ [net.CallWrite (ssl_request code)]
        \/ net.calls c'
           = net.calls c
               ++ [net.CallWrite (ssl_request code); net.CallRead 4096]).
Proof.
  destruct w as [nw st l sk]. cbn [network settings sockets sink].
  intros Hdial Hssl Hio. unfold Connect.
  rewrite (bind_Returned _ _ _ _ _ (Connect_dialled host nw st l sk c Hdial)).
  cbv beta iota.
  erewrite bind_Returned by reflexivity.
  cbn [settings]. rewrite Hssl.
  erewrite bind_Returned by reflexivity.
  destruct Hio as [(n & Hw) | (n1 & c1 & n2 & response & Hw & Hr)].
  - erewrite bind_Returned by (apply on_last; exact Hw).
    cbv beta iota.
    do 2 erewrite bind_Returned by reflexivity.
    eexists. split; [reflexivity |]. split; [reflexivity |].
    left. eapply Write_calls; eassumption.
  - erewrite bind_Returned by (apply on_last; exact Hw).
    cbv beta iota.
    rewrite (bind_Returned _ _ _ _ _ (make_response _)).
    erewrite bind_Returned by (apply on_last; exact Hr).
    cbv beta iota.
    do 2 erewrite bind_Returned by reflexivity.
    eexists. split; [reflexivity |]. split; [reflexivity |].
    right. apply Write_calls in Hw. apply Read_calls in Hr.
    rewrite Hr, Hw, repeat_length, <- app_assoc. reflexivity.
Qed.

(** C6.  With SSL switched on and the request sent, the bytes that the
    read of the response delivered decide: with a first byte 'S' the upgrade
    is called on the handle of the open socket and [Connect] returns the
    handle that the upgrade gives; with any other first byte, or no byte at
    all, [Connect] closes the socket, on which every later [Read] fails with
    the closed-connection error. *)
Theorem Connect_negotiation
        (host : string) (w : World) (c c1 c2 : net.Conn)
        (n1 n2 : nat) (response : list byte) :
  network w "tcp" host = inl c ->
  settings w "credentials.ssl.enable" = true ->
  net.Write c (ssl_request code) = (n1, None, c1) ->
  net.Read c1 (repeat x00 4096) = (n2, None, response, c2) ->
  let connection : handle := Some (length (sockets w)) in
  match spec_outcome (firstn n2 response) with
  | Allowed =>
      Connect code upgrade host w
      = (upgraded <- upgrade host connection ;;
         log.Debug "Connection successfully upgraded." ;;
         ret (upgraded, None))
          (mkWorld (network w) (settings w) (sockets w ++ [c2])
             (sink w
                ++ [enabled_entry;
                    mkEntry DebugLevel
                            "SSL connections are allowed by PostgreSQL." [];
                    mkEntry DebugLevel "Attempting to upgrade connection." []]))
      /\ net.is_closed c2 = false
  | Rejected =>
      Connect code upgrade host w
      = Returned (connection, None)
          (mkWorld (network w) (settings w)
             (sockets w ++ [snd (net.Close c2)])
             (sink w
                ++ [enabled_entry;
                    mkEntry ErrorLevel
                            "The backend does not allow SSL connections." []]))
      /\ net.is_closed (snd (net.Close c2)) = true
      /\ forall b : list byte,
          exists c3,
            net.Read (snd (net.Close c2)) b = (0%nat, Some ErrClosed, b, c3)
  end.
Proof.
  destruct w as [nw st l sk]. cbn [network settings sockets sink].
  intros Hdial Hssl Hw Hr. set (connection := Some (length l) : handle).
  pose proof (rejection_test _ _ _ _ Hr) as Htest.
  assert (Hrun :
    Connect code upgrade host (mkWorld nw st l sk)
    = (if (0 <? length response)%nat
          && negb (Byte.eqb (index response 0) "S"%byte)
       then
         log.Error "The backend does not allow SSL connections." ;;
         _ <- on connection net.Close ;;
         ret (connection, None)
       else
         log.Debug "SSL connections are allowed by PostgreSQL." ;;
         log.Debug "Attempting to upgrade connection." ;;
         upgraded <- upgrade host connection ;;
         log.Debug "Connection successfully upgraded." ;;
         ret (upgraded, None))
        (mkWorld nw st (l ++ [c2]) (sk ++ [enabled_entry]))).
  { unfold Connect.
    rewrite (bind_Returned _ _ _ _ _ (Connect_dialled host nw st l sk c Hdial)).
    cbv beta iota.
    erewrite bind_Returned by reflexivity.
    cbn [settings]. rewrite Hssl.
    erewrite bind_Returned by reflexivity.
    erewrite bind_Returned by (apply on_last; exact Hw).
    cbv beta iota.
    rewrite (bind_Returned _ _ _ _ _ (make_response _)).
    erewrite bind_Returned by (apply on_last; exact Hr).
    reflexivity. }
  rewrite Hrun, Htest.
  destruct (spec_outcome (firstn n2 response)).
  - split.
    + do 2 erewrite bind_Returned by reflexivity.
      cbn [network settings sockets sink]. rewrite <- !app_assoc. reflexivity.
    + eapply Read_ok_open; eassumption.
  - split; [| split].
    + erewrite bind_Returned by reflexivity.
      erewrite bind_Returned
        by (apply on_last; apply surjective_pairing).
      cbn [network settings sockets sink]. rewrite <- !app_assoc. reflexivity.
    + apply Close_closes.
    + intros b. eexists. apply Read_closed, Close_closes.
Qed.

End ConnectorProperties.

Lemma Connect_without_ssl_witness :
  Connect postgres_SSLRequestCode upgrade_in_place "db:5432"
          (fresh_world (inl (fresh_conn [["N"%byte]] EOF)) false)
  = Returned (Some 0%nat, None)
             (mkWorld (fun _ _ => inl (fresh_conn [["N"%byte]] EOF))
                      (fun _ => false) [fresh_conn [["N"%byte]] EOF] []).
Proof.
  apply (Connect_without_ssl postgres_SSLRequestCode upgrade_in_place "db:5432"
           (fresh_world (inl (fresh_conn [["N"%byte]] EOF)) false)
           (fresh_conn [["N"%byte]] EOF)).
  - reflexivity.
  - reflexivity.
Defined.

Lemma Connect_io_failure_witness :
  (exists w',
      Connect postgres_SSLRequestCode upgrade_in_place "db:5432"
              backend_refusing_writes
      = Returned (None, Some (OpError "broken pipe")) w')
  /\ (exists w',
         Connect postgres_SSLRequestCode upgrade_in_place "db:5432"
                 (backend_answering [])
         = Returned (None, Some EOF) w').
Proof.
  split.
  - edestruct (Connect_io_failure postgres_SSLRequestCode upgrade_in_place
                 "db:5432" backend_refusing_writes) as (w' & H & _).
    + reflexivity.
    + reflexivity.
    + left. eexists. reflexivity.
    + exists w'. exact H.
  - edestruct (Connect_io_failure postgres_SSLRequestCode upgrade_in_place
                 "db:5432" (backend_answering [])) as (w' & H & _).
    + reflexivity.
    + reflexivity.
    + right. do 4 eexists. split; reflexivity.
    + exists w'. exact H.
Defined.

Lemma Connect_negotiation_witness :
  (exists w' c,
      Connect postgres_SSLRequestCode upgrade_in_place "db:5432"
              (backend_answering [["S"%byte; x00; x00; x00]])
      = Returned (Some 0%nat, None) w'
      /\ sockets w' = [c] /\ net.is_closed c = false)
  /\ (exists w' c,
         Connect postgres_SSLRequestCode upgrade_in_place "db:5432"
                 (backend_answering [["N"%byte]])
         = Returned (Some 0%nat, None) w'
         /\ sockets w' = [c] /\ net.is_closed c = true)
  /\ (exists w' c,
         Connect postgres_SSLRequestCode upgrade_in_place "db:5432"
                 (backend_answering [[]])
         = Returned (Some 0%nat, None) w'
         /\ sockets w' = [c] /\ net.is_closed c = true).
Proof.
  split; [| split].
  - edestruct (Connect_negotiation postgres_SSLRequestCode upgrade_in_place
                 "db:5432" (backend_answering [["S"%byte; x00; x00; x00]])
                 _ _ _ _ _ _ eq_refl eq_refl eq_refl eq_refl) as [H Hopen].
    eexists. eexists. split; [exact H |]. split; [reflexivity | exact Hopen].
  - edestruct (Connect_negotiation postgres_SSLRequestCode upgrade_in_place
                 "db:5432" (backend_answering [["N"%byte]])
                 _ _ _ _ _ _ eq_refl eq_refl eq_refl eq_refl)
      as (H & Hclosed & _).
    eexists. eexists. split; [exact H |]. split; [reflexivity | exact Hclosed].
  - edestruct (Connect_negotiation postgres_SSLRequestCode upgrade_in_place
                 "db:5432" (backend_answering [[]])
                 _ _ _ _ _ _ eq_refl eq_refl eq_refl eq_refl)
      as (H & Hclosed & _).
    eexists. eexists. split; [exact H |]. split; [reflexivity | exact Hclosed].
Defined.

(** ** A rejected negotiation *)

(** C1.  When SSL is required and the first byte of the response is not
    'S', [Connect] should report a failure and return no usable handle.
    With the response 'N' it returns the handle of the socket it has just
    closed together with a nil error. *)
Theorem Connect_returns_closed_socket_on_rejection :
  exists w' c,
    Connect postgres_SSLRequestCode upgrade_in_place "db:5432"
            (backend_answering [["N"%byte]])
    = Returned (Some 0%nat, None) w'
    /\ sockets w' = [c]
    /\ net.is_closed c = true
    /\ net.calls c
       = [net.CallWrite (ssl_request postgres_SSLRequestCode);
          net.CallRead 4096; net.CallClose].
Proof.
  eexists. eexists. split; [vm_compute; reflexivity |].
  split; [reflexivity |]. split; reflexivity.
Qed.

(** * Further properties of the framing functions *)

(** ** What a read leaves alone *)

Lemma only_reads_refl (r : net.Conn) : only_reads r r.
Proof.
  split; [apply after_reads_refl |]. exists []. cbn [map].
  now rewrite app_nil_r.
Qed.

Lemma only_reads_trans (a b c : net.Conn) :
  only_reads a b -> only_reads b c -> only_reads a c.
Proof.
  intros [Hab [k1 H1]] [Hbc [k2 H2]]. split.
  - eapply after_reads_trans; eassumption.
  - exists (k1 ++ k2). now rewrite H2, H1, map_app, app_assoc.
Qed.

Lemma Read_only_reads (r r' : net.Conn) (b b' : list byte) nn err :
  net.Read r b = (nn, err, b', r') -> only_reads r r'.
Proof.
  intros H. split.
  - revert H. unfold net.Read, after_reads.
    cbn [net.called net.is_closed net.incoming].
    destruct (net.is_closed r) eqn:E.
    { intros H. injection H as _ _ _ <-. repeat split. exact E. }
    destruct (length b =? 0)%nat.
    { intros H. injection H as _ _ _ <-. repeat split. exact E. }
    destruct (net.incoming r) as [| seg segs].
    { intros H. injection H as _ _ _ <-. repeat split. exact E. }
    unfold copy. intros H. injection H as _ _ _ <-. repeat split. exact E.
  - exists [length b]. eapply Read_calls. exact H.
Qed.

Lemma Read_count (r r' : net.Conn) (b b' : list byte) nn err :
  net.Read r b = (nn, err, b', r') -> (nn <= length b)%nat.
Proof.
  unfold net.Read. cbn [net.called net.is_closed net.incoming].
  destruct (net.is_closed r).
  { intros H. injection H as <- _ _ _. lia. }
  destruct (length b =? 0)%nat.
  { intros H. injection H as <- _ _ _. lia. }
  destruct (net.incoming r) as [| seg segs].
  { intros H. injection H as <- _ _ _. lia. }
  unfold copy. intros H. injection H as <- _ _ _.
  rewrite length_firstn. lia.
Qed.

Lemma read_loop_only_reads (fuel : nat) :
  forall (r r' : net.Conn) (buf buf' : list byte) (min n n' : nat) err err',
    io.read_loop fuel r buf min n err = Some (n', err', buf', r') ->
    (n <= length buf)%nat ->
    only_reads r r' /\ length buf' = length buf.
Proof.
  induction fuel as [| fuel IH]; intros r r' buf buf' min n n' err err' H Hn;
    cbn [io.read_loop] in H;
    destruct ((n <? min)%nat && io.is_nil err); try discriminate;
    try (injection H as _ _ <- <-; split; [apply only_reads_refl | reflexivity]).
  destruct (net.Read r (skipn n buf)) as [[[nn e1] tail] r1] eqn:HR.
  pose proof (Read_length _ _ _ _ _ _ HR) as Htail.
  pose proof (Read_count _ _ _ _ _ _ HR) as Hnn.
  rewrite length_skipn in Htail, Hnn.
  assert (Hlen : length (firstn n buf ++ tail) = length buf)
    by (rewrite length_app, length_firstn; lia).
  apply IH in H as [Hr Hb]; [| rewrite Hlen; lia].
  split; [| now rewrite Hb].
  eapply only_reads_trans; [eapply Read_only_reads; exact HR | exact Hr].
Qed.

(** [io.ReadFull] only reads, and hands back a buffer of the same length. *)
Lemma ReadFull_only_reads (buf buf' : list byte) (r r' : net.Conn) n err :
  io.ReadFull buf r = Returned (n, err, buf') r' ->
  only_reads r r' /\ length buf' = length buf.
Proof.
  unfold io.ReadFull, io.ReadAtLeast. rewrite Nat.ltb_irrefl.
  destruct (io.read_loop _ r buf (length buf) 0 None)
    as [[[[n1 e1] b1] r1] |] eqn:Hrun; [| discriminate].
  intros H. injection H as _ _ <- <-.
  eapply read_loop_only_reads; [exact Hrun | lia].
Qed.

(** ** The shape of every run *)

(** Every run of [ReceiveStartupMessage] is one of four: the header read
    fails; the allocation of the payload panics; the payload read fails; or
    both reads fill their buffers. *)
Lemma ReceiveStartupMessage_cases (r : net.Conn) :
  exists n1 e1 header r1,
    io.ReadFull (repeat x00 4) r = Returned (n1, e1, header) r1
    /\ length header = 4%nat
    /\ match e1 with
       | Some e => ReceiveStartupMessage r = Returned ([], 0, Some e) r1
       | None =>
           let size := binary.BigEndian_Uint32 header - 4 in
           if size <? 0
           then ReceiveStartupMessage r
                = Panicked "makeslice: len out of range" r1
           else
             exists n2 e2 payload r2,
               io.ReadFull (repeat x00 (Z.to_nat size)) r1
               = Returned (n2, e2, payload) r2
               /\ length payload = Z.to_nat size
               /\ ReceiveStartupMessage r
                  = match e2 with
                    | Some e => Returned ([], 0, Some e) r2
                    | None => Returned (header ++ payload,
                                        binary.BigEndian_Uint32 header, None) r2
                    end
       end.
Proof.
  destruct (ReadFull_returns (repeat x00 4) r) as ([[n1 e1] h] & r1 & H1).
  exists n1, e1, h, r1. split; [exact H1 |].
  destruct (ReadFull_only_reads _ _ _ _ _ _ H1) as [_ Hh].
  rewrite repeat_length in Hh. split; [exact Hh |].
  pose proof (BigEndian_Uint32_range h) as HL.
  unfold ReceiveStartupMessage.
  rewrite (bind_Returned _ _ r r (repeat x00 4)) by reflexivity.
  rewrite (bind_Returned _ _ _ _ _ H1). cbv beta iota.
  destruct e1 as [e |]; [reflexivity |].
  rewrite slice_all, payload_size_exact by assumption. cbv zeta.
  destruct (Z.ltb_spec (binary.BigEndian_Uint32 h - 4) 0) as [Hneg | Hpos].
  { apply bind_Panicked. now apply make_negative. }
  rewrite (bind_Returned _ _ _ _ _ (make_nonneg _ r1 Hpos)).
  destruct (ReadFull_returns
              (repeat x00 (Z.to_nat (binary.BigEndian_Uint32 h - 4))) r1)
    as ([[n2 e2] p] & r2 & H2).
  exists n2, e2, p, r2. split; [exact H2 |].
  destruct (ReadFull_only_reads _ _ _ _ _ _ H2) as [_ Hp].
  rewrite repeat_length in Hp. split; [exact Hp |].
  rewrite (bind_Returned _ _ _ _ _ H2). cbv beta iota.
  destruct e2 as [e |]; [reflexivity |].
  unfold ret. rewrite Buffer_Len_Bytes, Buffer_two_writes.
  do 3 f_equal. rewrite length_app. lia.
Qed.

Lemma Receive_cases (r : net.Conn) :
  exists n1 e1 header r1,
    io.ReadFull (repeat x00 5) r = Returned (n1, e1, header) r1
    /\ length header = 5%nat
    /\ match e1 with
       | Some e => Receive r = Returned ([], 0, Some e) r1
       | None =>
           let size := binary.BigEndian_Uint32 (slice header 1 5) - 4 in
           if size <? 0
           then Receive r = Panicked "makeslice: len out of range" r1
           else
             exists n2 e2 payload r2,
               io.ReadFull (repeat x00 (Z.to_nat size)) r1
               = Returned (n2, e2, payload) r2
               /\ length payload = Z.to_nat size
               /\ Receive r
                  = match e2 with
                    | Some e => Returned ([], Z.of_nat n2, Some e) r2
                    | None => Returned (header ++ payload, 5 + size, None) r2
                    end
       end.
Proof.
  destruct (ReadFull_returns (repeat x00 5) r) as ([[n1 e1] h] & r1 & H1).
  exists n1, e1, h, r1. split; [exact H1 |].
  destruct (ReadFull_only_reads _ _ _ _ _ _ H1) as [_ Hh].
  rewrite repeat_length in Hh. split; [exact Hh |].
  pose proof (BigEndian_Uint32_range (slice h 1 5)) as HL.
  unfold Receive.
  rewrite (bind_Returned _ _ r r (repeat x00 5)) by reflexivity.
  rewrite (bind_Returned _ _ _ _ _ H1). cbv beta iota.
  destruct e1 as [e |]; [reflexivity |].
  rewrite payload_size_exact by assumption. cbv zeta.
  destruct (Z.ltb_spec (binary.BigEndian_Uint32 (slice h 1 5) - 4) 0)
    as [Hneg | Hpos].
  { apply bind_Panicked. now apply make_negative. }
  rewrite (bind_Returned _ _ _ _ _ (make_nonneg _ r1 Hpos)).
  destruct (ReadFull_returns
              (repeat x00
                 (Z.to_nat (binary.BigEndian_Uint32 (slice h 1 5) - 4))) r1)
    as ([[n2 e2] p] & r2 & H2).
  exists n2, e2, p, r2. split; [exact H2 |].
  destruct (ReadFull_only_reads _ _ _ _ _ _ H2) as [_ Hp].
  rewrite repeat_length in Hp. split; [exact Hp |].
  rewrite (bind_Returned _ _ _ _ _ H2). cbv beta iota.
  destruct e2 as [e |]; [reflexivity |].
  unfold ret. rewrite Buffer_Len_Bytes, Buffer_two_writes.
  do 3 f_equal. rewrite length_app. lia.
Qed.

(** X1.  Whatever a framing function ends with, a value or a panic, it has
    only read: the connection is as open or closed as before, nothing has
    been written, and the calls made on it are [Read] calls. *)
Theorem framing_only_reads (r r' : net.Conn) :
  final_state (ReceiveStartupMessage r) = Some r'
  \/ final_state (Receive r) = Some r' ->
  only_reads r r'.
Proof.
  intros [H | H].
  - destruct (ReceiveStartupMessage_cases r)
      as (n1 & e1 & h & r1 & H1 & _ & Hrun).
    apply ReadFull_only_reads in H1 as [Hr1 _].
    destruct e1 as [e |].
    { rewrite Hrun in H. injection H as <-. exact Hr1. }
    cbv zeta in Hrun. destruct (_ <? 0).
    { rewrite Hrun in H. injection H as <-. exact Hr1. }
    destruct Hrun as (n2 & e2 & p & r2 & H2 & _ & Hrun).
    apply ReadFull_only_reads in H2 as [Hr2 _].
    rewrite Hrun in H.
    destruct e2; injection H as <-; eapply only_reads_trans; eassumption.
  - destruct (Receive_cases r) as (n1 & e1 & h & r1 & H1 & _ & Hrun).
    apply ReadFull_only_reads in H1 as [Hr1 _].
    destruct e1 as [e |].
    { rewrite Hrun in H. injection H as <-. exact Hr1. }
    cbv zeta in Hrun. destruct (_ <? 0).
    { rewrite Hrun in H. injection H as <-. exact Hr1. }
    destruct Hrun as (n2 & e2 & p & r2 & H2 & _ & Hrun).
    apply ReadFull_only_reads in H2 as [Hr2 _].
    rewrite Hrun in H.
    destruct e2; injection H as <-; eapply only_reads_trans; eassumption.
Qed.

Lemma framing_only_reads_witness :
  only_reads sample_startup
    (net.mkConn [[x05]] EOF None [] false
       [net.CallRead 4; net.CallRead 2; net.CallRead 4; net.CallRead 3])
  /\ only_reads (fresh_conn [["Q"%byte; x00; x00; x00; x03]] EOF)
       (net.mkConn [] EOF None [] false [net.CallRead 5]).
Proof.
  split.
  - apply (framing_only_reads sample_startup). left. vm_compute. reflexivity.
  - apply (framing_only_reads (fresh_conn [["Q"%byte; x00; x00; x00; x03]] EOF)).
    right. vm_compute. reflexivity.
Defined.

(** X2.  Every startup message that [ReceiveStartupMessage] returns with a
    nil error is consistent with itself: its first four bytes decode to the
    returned length, which is the length of the slice and at least four. *)
Theorem ReceiveStartupMessage_returns_own_length
        (r r' : net.Conn) (message : list byte) (n : Z) :
  ReceiveStartupMessage r = Returned (message, n, None) r' ->
  4 <= n
  /\ Z.of_nat (length message) = n
  /\ binary.BigEndian_Uint32 (firstn 4 message) = n.
Proof.
  intros H.
  destruct (ReceiveStartupMessage_cases r)
    as (n1 & e1 & h & r1 & _ & Hh & Hrun).
  destruct e1 as [e |]; [rewrite Hrun in H; discriminate |].
  cbv zeta in Hrun.
  destruct (Z.ltb_spec (binary.BigEndian_Uint32 h - 4) 0) as [Hneg | Hpos];
    [rewrite Hrun in H; discriminate |].
  destruct Hrun as (n2 & e2 & p & r2 & _ & Hp & Hrun).
  rewrite Hrun in H. destruct e2; [discriminate |].
  injection H as <- <- _.
  rewrite firstn_prefix, firstn_all2, length_app by lia.
  repeat split; lia.
Qed.

Lemma ReceiveStartupMessage_returns_own_length_witness :
  4 <= 8
  /\ Z.of_nat (length [x00; x00; x00; x08; x01; x02; x03; x04]) = 8
  /\ binary.BigEndian_Uint32
       (firstn 4 [x00; x00; x00; x08; x01; x02; x03; x04]) = 8.
Proof.
  eapply (ReceiveStartupMessage_returns_own_length sample_startup).
  vm_compute. reflexivity.
Defined.

(** X3.  Every regular message that [Receive] returns with a nil error is
    consistent with itself: bytes 1 to 4 decode to a length of at least
    four, and the returned length, which is the length of the slice, is one
    more (the type byte). *)
Theorem Receive_returns_own_length
        (r r' : net.Conn) (message : list byte) (n : Z) :
  Receive r = Returned (message, n, None) r' ->
  5 <= n
  /\ Z.of_nat (length message) = n
  /\ binary.BigEndian_Uint32 (slice message 1 5) + 1 = n.
Proof.
  intros H.
  destruct (Receive_cases r) as (n1 & e1 & h & r1 & _ & Hh & Hrun).
  destruct e1 as [e |]; [rewrite Hrun in H; discriminate |].
  cbv zeta in Hrun.
  destruct (Z.ltb_spec (binary.BigEndian_Uint32 (slice h 1 5) - 4) 0)
    as [Hneg | Hpos]; [rewrite Hrun in H; discriminate |].
  destruct Hrun as (n2 & e2 & p & r2 & _ & Hp & Hrun).
  rewrite Hrun in H. destruct e2; [discriminate |].
  assert (Hm : message = h ++ p) by congruence.
  assert (Hn : n = 5 + (binary.BigEndian_Uint32 (slice h 1 5) - 4))
    by congruence.
  subst message n.
  assert (Hs : slice (h ++ p) 1 5 = slice h 1 5).
  { unfold slice. rewrite skipn_prefix by lia.
    rewrite firstn_prefix by (rewrite length_skipn; lia). reflexivity. }
  rewrite Hs, length_app. split; [| split]; lia.
Qed.

Lemma Receive_returns_own_length_witness :
  5 <= 9
  /\ Z.of_nat (length ["Q"%byte; x00; x00; x00; x08; x01; x02; x03; x04]) = 9
  /\ binary.BigEndian_Uint32
       (slice ["Q"%byte; x00; x00; x00; x08; x01; x02; x03; x04] 1 5) + 1 = 9.
Proof.
  eapply (Receive_returns_own_length sample_regular).
  vm_compute. reflexivity.
Defined.

(** ** Streams that end inside the header *)

Lemma ReceiveStartupMessage_header_short (r : net.Conn) :
  net.is_closed r = false ->
  (length (net.pending r) < 4)%nat ->
  exists r',
    ReceiveStartupMessage r
    = Returned ([], 0,
                Some (short_read_error (length (net.pending r)) (net.at_end r)))
               r'
    /\ net.pending r' = [].
Proof.
  intros Hopen Hshort.
  destruct (ReadFull_short r (repeat x00 4)) as (r1 & b1 & H1 & Hp1 & _);
    [assumption | now rewrite repeat_length |].
  exists r1. split; [| exact Hp1].
  destruct (ReceiveStartupMessage_cases r) as (n & e & h & r0 & H0 & _ & Hrun).
  rewrite H1 in H0. injection H0 as <- <- <- <-. exact Hrun.
Qed.

Lemma Receive_header_short (r : net.Conn) :
  net.is_closed r = false ->
  (length (net.pending r) < 5)%nat ->
  exists r',
    Receive r
    = Returned ([], 0,
                Some (short_read_error (length (net.pending r)) (net.at_end r)))
               r'
    /\ net.pending r' = [].
Proof.
  intros Hopen Hshort.
  destruct (ReadFull_short r (repeat x00 5)) as (r1 & b1 & H1 & Hp1 & _);
    [assumption | now rewrite repeat_length |].
  exists r1. split; [| exact Hp1].
  destruct (Receive_cases r) as (n & e & h & r0 & H0 & _ & Hrun).
  rewrite H1 in H0. injection H0 as <- <- <- <-. exact Hrun.
Qed.

(** X4.  When the stream ends before the header is complete, both framing
    functions return a nil slice, the count zero (the header bytes that
    were read are not counted) and the error of the read: the error the
    connection reports at its end, with [io.EOF] turned into
    [io.ErrUnexpectedEOF] when at least one byte had arrived. *)
Theorem header_incomplete (r : net.Conn) :
  net.is_closed r = false ->
  let e := short_read_error (length (net.pending r)) (net.at_end r) in
  ((length (net.pending r) < 4)%nat ->
   exists r',
     ReceiveStartupMessage r = Returned ([], 0, Some e) r'
     /\ net.pending r' = [])
  /\ ((length (net.pending r) < 5)%nat ->
      exists r',
        Receive r = Returned ([], 0, Some e) r' /\ net.pending r' = []).
Proof.
  intros Hopen e. split; intros Hshort.
  - now apply ReceiveStartupMessage_header_short.
  - now apply Receive_header_short.
Qed.

Lemma header_incomplete_witness :
  (exists r',
      ReceiveStartupMessage (fresh_conn [[x00]; []; [x00; x00]] EOF)
      = Returned ([], 0, Some ErrUnexpectedEOF) r'
      /\ net.pending r' = [])
  /\ (exists r',
         Receive (fresh_conn [] EOF) = Returned ([], 0, Some EOF) r'
         /\ net.pending r' = []).
Proof.
  split.
  - apply (header_incomplete (fresh_conn [[x00]; []; [x00; x00]] EOF) eq_refl).
    vm_compute. lia.
  - apply (header_incomplete (fresh_conn [] EOF) eq_refl).
    vm_compute. lia.
Defined.

(** ** Closed connections *)

Lemma ReadFull_closed (r : net.Conn) (buf : list byte) :
  net.is_closed r = true ->
  buf <> [] ->
  io.ReadFull buf r
  = Returned (0%nat, Some ErrClosed, buf)
             (net.called r (net.CallRead (length buf))).
Proof.
  intros Hc Hbuf.
  assert (Hlen : (0 < length buf)%nat) by (destruct buf; [easy | simpl; lia]).
  unfold io.ReadFull, io.ReadAtLeast, io.read_fuel.
  rewrite Nat.ltb_irrefl. cbn [io.read_loop io.is_nil].
  destruct (Nat.ltb_spec 0 (length buf)) as [_ | ?]; [| lia].
  cbn [andb skipn firstn app]. rewrite (Read_closed r buf Hc).
  rewrite read_loop_done by (cbn [io.is_nil]; apply andb_false_r).
  cbn [Nat.add].
  destruct (Nat.leb_spec (length buf) 0) as [? | _]; [lia |].
  reflexivity.
Qed.

(** X5.  On a connection that has been closed, both framing functions
    return a nil slice, the count zero and the closed-connection error,
    after a single [Read] call for the header. *)
Theorem framing_on_closed_connection (r : net.Conn) :
  net.is_closed r = true ->
  ReceiveStartupMessage r
  = Returned ([], 0, Some ErrClosed) (net.called r (net.CallRead 4))
  /\ Receive r
     = Returned ([], 0, Some ErrClosed) (net.called r (net.CallRead 5)).
Proof.
  intros Hc. split.
  - destruct (ReceiveStartupMessage_cases r) as (n & e & h & r0 & H0 & _ & Hrun).
    rewrite (ReadFull_closed r (repeat x00 4) Hc) in H0 by discriminate.
    injection H0 as <- <- <- <-. exact Hrun.
  - destruct (Receive_cases r) as (n & e & h & r0 & H0 & _ & Hrun).
    rewrite (ReadFull_closed r (repeat x00 5) Hc) in H0 by discriminate.
    injection H0 as <- <- <- <-. exact Hrun.
Qed.

Lemma framing_on_closed_connection_witness :
  ReceiveStartupMessage (snd (net.Close sample_startup))
  = Returned ([], 0, Some ErrClosed)
             (net.called (snd (net.Close sample_startup)) (net.CallRead 4))
  /\ Receive (snd (net.Close sample_startup))
     = Returned ([], 0, Some ErrClosed)
                (net.called (snd (net.Close sample_startup)) (net.CallRead 5)).
Proof.
  apply (framing_on_closed_connection (snd (net.Close sample_startup))).
  reflexivity.
Defined.

(** ** Payloads of length zero *)

(** X6.  With the length field exactly four, [Receive] returns the five
    header bytes alone; the connection is left as the header read left it:
    no [Read] is issued for the payload. *)
Theorem Receive_empty_payload
        (r : net.Conn) (type : byte) (len rest : list byte) :
  net.is_closed r = false ->
  length len = 4%nat ->
  binary.BigEndian_Uint32 len = 4 ->
  net.pending r = (type :: len) ++ rest ->
  exists r1,
    io.ReadFull (repeat x00 5) r = Returned (5%nat, None, type :: len) r1
    /\ Receive r = Returned (type :: len, 5, None) r1
    /\ net.pending r1 = rest.
Proof.
  intros Hopen Hlen HL Hpend.
  destruct (ReadFull_fills r (repeat x00 5) (type :: len) rest)
    as (r1 & H1 & Hp1 & _); try assumption.
  { rewrite repeat_length. cbn [length]. now rewrite Hlen. }
  cbn [length] in H1. rewrite Hlen in H1.
  exists r1. split; [exact H1 |]. split; [| exact Hp1].
  destruct (Receive_cases r) as (n & e & h & r0 & H0 & _ & Hrun).
  rewrite H1 in H0. injection H0 as <- <- <- <-.
  assert (Hslice : slice (type :: len) 1 5 = len).
  { unfold slice. cbn [skipn Nat.sub]. rewrite <- Hlen. apply firstn_all. }
  cbv zeta in Hrun. rewrite Hslice, HL in Hrun.
  change (4 - 4 <? 0) with false in Hrun. cbv iota in Hrun.
  destruct Hrun as (n2 & e2 & p & r2 & H2 & _ & Hrun).
  change (repeat x00 (Z.to_nat (4 - 4))) with (@nil byte) in H2.
  rewrite ReadFull_empty in H2. injection H2 as <- <- <- <-.
  rewrite Hrun, app_nil_r. reflexivity.
Qed.

Lemma Receive_empty_payload_witness :
  exists r1,
    io.ReadFull (repeat x00 5)
                (fresh_conn [["Q"%byte; x00]; [x00; x00; x04; "X"%byte]] EOF)
    = Returned (5%nat, None, ["Q"%byte; x00; x00; x00; x04]) r1
    /\ Receive (fresh_conn [["Q"%byte; x00]; [x00; x00; x04; "X"%byte]] EOF)
       = Returned (["Q"%byte; x00; x00; x00; x04], 5, None) r1
    /\ net.pending r1 = ["X"%byte].
Proof.
  apply (Receive_empty_payload
           (fresh_conn [["Q"%byte; x00]; [x00; x00; x04; "X"%byte]] EOF)
           "Q"%byte [x00; x00; x00; x04] ["X"%byte]); reflexivity.
Defined.

(** X7.  With the length field exactly four, [ReceiveStartupMessage]
    returns the four header bytes alone; the connection is left as the
    header read left it: no [Read] is issued for the payload. *)
Theorem ReceiveStartupMessage_empty_payload
        (r : net.Conn) (header rest : list byte) :
  net.is_closed r = false ->
  length header = 4%nat ->
  binary.BigEndian_Uint32 header = 4 ->
  net.pending r = header ++ rest ->
  exists r1,
    io.ReadFull (repeat x00 4) r = Returned (4%nat, None, header) r1
    /\ ReceiveStartupMessage r = Returned (header, 4, None) r1
    /\ net.pending r1 = rest.
Proof.
  intros Hopen Hlen HL Hpend.
  destruct (ReadFull_fills r (repeat x00 4) header rest)
    as (r1 & H1 & Hp1 & _); try assumption.
  { now rewrite repeat_length. }
  rewrite Hlen in H1.
  exists r1. split; [exact H1 |]. split; [| exact Hp1].
  destruct (ReceiveStartupMessage_cases r) as (n & e & h & r0 & H0 & _ & Hrun).
  rewrite H1 in H0. injection H0 as <- <- <- <-.
  cbv zeta in Hrun. rewrite HL in Hrun.
  change (4 - 4 <? 0) with false in Hrun. cbv iota in Hrun.
  destruct Hrun as (n2 & e2 & p & r2 & H2 & _ & Hrun).
  change (repeat x00 (Z.to_nat (4 - 4))) with (@nil byte) in H2.
  rewrite ReadFull_empty in H2. injection H2 as <- <- <- <-.
  rewrite Hrun, app_nil_r. reflexivity.
Qed.

Lemma ReceiveStartupMessage_empty_payload_witness :
  exists r1,
    io.ReadFull (repeat x00 4)
                (fresh_conn [[x00; x00]; [x00; x04; "X"%byte]] EOF)
    = Returned (4%nat, None, [x00; x00; x00; x04]) r1
    /\ ReceiveStartupMessage (fresh_conn [[x00; x00]; [x00; x04; "X"%byte]] EOF)
       = Returned ([x00; x00; x00; x04], 4, None) r1
    /\ net.pending r1 = ["X"%byte].
Proof.
  apply (ReceiveStartupMessage_empty_payload
           (fresh_conn [[x00; x00]; [x00; x04; "X"%byte]] EOF)
           [x00; x00; x00; x04] ["X"%byte]); reflexivity.
Defined.

(** ** Streams that end inside the payload *)

Lemma Receive_truncated_rest
      (r : net.Conn) (type : byte) (len partial : list byte) :
  net.is_closed r = false ->
  net.pending r = (type :: len) ++ partial ->
  length len = 4%nat ->
  Z.of_nat (length partial) < binary.BigEndian_Uint32 len - 4 ->
  exists r',
    Receive r
    = Returned ([], Z.of_nat (length partial),
                Some (short_read_error (length partial) (net.at_end r))) r'
    /\ net.pending r' = [].
Proof.
  intros Hopen Hpend Hh Hp.
  destruct (ReadFull_fills r (repeat x00 5) (type :: len) partial)
    as (r1 & H1 & Hpend1 & Hc1 & He1 & _); try assumption.
  { rewrite repeat_length. cbn [length]. now rewrite Hh. }
  destruct (ReadFull_short r1
              (repeat x00 (Z.to_nat (binary.BigEndian_Uint32 len - 4))))
    as (r2 & buf2 & H2 & Hpend2 & _).
  { now rewrite Hc1. }
  { rewrite repeat_length, Hpend1. lia. }
  exists r2. split; [| exact Hpend2].
  assert (Hslice : slice (type :: len) 1 5 = len).
  { unfold slice. cbn [skipn Nat.sub]. rewrite <- Hh. apply firstn_all. }
  destruct (Receive_cases r) as (n & e & h & r0 & H0 & _ & Hrun).
  rewrite H1 in H0. injection H0 as <- <- <- <-.
  cbv zeta in Hrun. rewrite Hslice in Hrun.
  destruct (Z.ltb_spec (binary.BigEndian_Uint32 len - 4) 0); [lia |].
  destruct Hrun as (n2 & e2 & p & r3 & H3 & _ & Hrun).
  rewrite H2 in H3. injection H3 as <- <- <- <-.
  rewrite Hrun, Hpend1, He1. reflexivity.
Qed.

Lemma ReceiveStartupMessage_truncated_rest
      (r : net.Conn) (header partial : list byte) :
  net.is_closed r = false ->
  net.pending r = header ++ partial ->
  length header = 4%nat ->
  Z.of_nat (length partial) < binary.BigEndian_Uint32 header - 4 ->
  exists r',
    ReceiveStartupMessage r
    = Returned ([], 0,
                Some (short_read_error (length partial) (net.at_end r))) r'
    /\ net.pending r' = [].
Proof.
  intros Hopen Hpend Hh Hp.
  destruct (ReadFull_fills r (repeat x00 4) header partial)
    as (r1 & H1 & Hpend1 & Hc1 & He1 & _); try assumption.
  { now rewrite repeat_length. }
  destruct (ReadFull_short r1
              (repeat x00 (Z.to_nat (binary.BigEndian_Uint32 header - 4))))
    as (r2 & buf2 & H2 & Hpend2 & _).
  { now rewrite Hc1. }
  { rewrite repeat_length, Hpend1. lia. }
  exists r2. split; [| exact Hpend2].
  destruct (ReceiveStartupMessage_cases r) as (n & e & h & r0 & H0 & _ & Hrun).
  rewrite H1 in H0. injection H0 as <- <- <- <-.
  cbv zeta in Hrun.
  destruct (Z.ltb_spec (binary.BigEndian_Uint32 header - 4) 0); [lia |].
  destruct Hrun as (n2 & e2 & p & r3 & H3 & _ & Hrun).
  rewrite H2 in H3. injection H3 as <- <- <- <-.
  rewrite Hrun, Hpend1, He1. reflexivity.
Qed.

(** X8.  When the stream ends inside the payload of a regular message,
    [Receive] returns a nil slice together with the number of payload bytes
    that did arrive, which is below the payload length the header
    announces, and the error of the read; nothing is left on the stream. *)
Theorem Receive_reports_payload_bytes_read
        (r : net.Conn) (type : byte) (len partial : list byte) :
  net.is_closed r = false ->
  length len = 4%nat ->
  Z.of_nat (length partial) < binary.BigEndian_Uint32 len - 4 ->
  net.pending r = (type :: len) ++ partial ->
  exists r',
    Receive r
    = Returned ([], Z.of_nat (length partial),
                Some (short_read_error (length partial) (net.at_end r))) r'
    /\ net.pending r' = [].
Proof.
  intros Hopen Hlen Hshort Hpend.
  now apply (Receive_truncated_rest r type len partial).
Qed.

Lemma Receive_reports_payload_bytes_read_witness :
  exists r',
    Receive (fresh_conn [["Q"%byte; x00; x00]; [x00; x08; x01; x02; x03]]
                        (OpError "connection reset by peer"))
    = Returned ([], 3, Some (OpError "connection reset by peer")) r'
    /\ net.pending r' = [].
Proof.
  apply (Receive_reports_payload_bytes_read
           (fresh_conn [["Q"%byte; x00; x00]; [x00; x08; x01; x02; x03]]
                       (OpError "connection reset by peer"))
           "Q"%byte [x00; x00; x00; x08] [x01; x02; x03]).
  - reflexivity.
  - reflexivity.
  - vm_compute. reflexivity.
  - reflexivity.
Defined.

(** ** Length fields below four *)

(** X9.  A header whose length field is below four makes both framing
    functions panic in the allocation of the payload, with the header bytes
    consumed and the rest of the stream unread. *)
Theorem length_below_four_always_panics (r : net.Conn) (bytes : list byte) :
  net.is_closed r = false ->
  net.pending r = bytes ->
  ((4 <= length bytes)%nat ->
   binary.BigEndian_Uint32 (firstn 4 bytes) < 4 ->
   exists r',
     ReceiveStartupMessage r = Panicked "makeslice: len out of range" r'
     /\ net.pending r' = skipn 4 bytes)
  /\ ((5 <= length bytes)%nat ->
      binary.BigEndian_Uint32 (slice bytes 1 5) < 4 ->
      exists r',
        Receive r = Panicked "makeslice: len out of range" r'
        /\ net.pending r' = skipn 5 bytes).
Proof.
  intros Hopen Hpend. split; intros Hlen HL.
  - apply (ReceiveStartupMessage_short_length r (firstn 4 bytes)
                                              (skipn 4 bytes));
      try assumption.
    + now rewrite firstn_skipn.
    + rewrite length_firstn. lia.
  - destruct bytes as [| type tail]; [simpl in Hlen; lia |].
    cbn [length] in Hlen.
    assert (Hs : slice (type :: tail) 1 5 = firstn 4 tail) by reflexivity.
    rewrite Hs in HL.
    apply (Receive_short_length r type (firstn 4 tail) (skipn 4 tail));
      try assumption.
    + cbn [app]. now rewrite firstn_skipn.
    + rewrite length_firstn. lia.
Qed.

Lemma length_below_four_always_panics_witness :
  (exists r',
      ReceiveStartupMessage (fresh_conn [[x00; x00]; [x00; x00; x07]] EOF)
      = Panicked "makeslice: len out of range" r'
      /\ net.pending r' = [x07])
  /\ (exists r',
         Receive (fresh_conn [["Q"%byte; x00; x00; x00]; [x02; x07]] EOF)
         = Panicked "makeslice: len out of range" r'
         /\ net.pending r' = [x07]).
Proof.
  split.
  - apply (length_below_four_always_panics
             (fresh_conn [[x00; x00]; [x00; x00; x07]] EOF)
             [x00; x00; x00; x00; x07] eq_refl eq_refl).
    + vm_compute. lia.
    + vm_compute. reflexivity.
  - apply (length_below_four_always_panics
             (fresh_conn [["Q"%byte; x00; x00; x00]; [x02; x07]] EOF)
             ["Q"%byte; x00; x00; x00; x02; x07] eq_refl eq_refl).
    + vm_compute. lia.
    + vm_compute. reflexivity.
Defined.

(** ** Messages in sequence *)

(** X10.  The start of a session: on a stream that carries a startup
    message followed by a regular message, [ReceiveStartupMessage] followed
    by [Receive] returns the two messages in order and leaves what follows
    them unread. *)
Theorem startup_then_regular
        (r : net.Conn) (header payload : list byte)
        (type : byte) (len body rest : list byte) :
  net.is_closed r = false ->
  length header = 4%nat ->
  Z.of_nat (length payload) = binary.BigEndian_Uint32 header - 4 ->
  length len = 4%nat ->
  Z.of_nat (length body) = binary.BigEndian_Uint32 len - 4 ->
  net.pending r = (header ++ payload) ++ ((type :: len) ++ body) ++ rest ->
  exists r',
    (first <- ReceiveStartupMessage ;;
     second <- Receive ;;
     ret (first, second)) r
    = Returned ((header ++ payload, binary.BigEndian_Uint32 header, None),
                ((type :: len) ++ body,
                 5 + (binary.BigEndian_Uint32 len - 4), None)) r'
    /\ net.pending r' = rest.
Proof.
  intros Hopen Hh Hp Hl Hb Hpend.
  rewrite <- !app_assoc in Hpend.
  destruct (ReceiveStartupMessage_frame r header payload
              (type :: len ++ body ++ rest))
    as (r1 & H1 & Hp1 & Hc1 & _); try assumption.
  assert (Hopen1 : net.is_closed r1 = false) by now rewrite Hc1.
  assert (Hpend1 : net.pending r1 = (type :: len) ++ body ++ rest)
    by exact Hp1.
  destruct (Receive_frame r1 type len body rest Hopen1 Hpend1 Hl Hb)
    as (r2 & H2 & Hp2 & _).
  exists r2. split; [| exact Hp2].
  rewrite (bind_Returned _ _ _ _ _ H1), (bind_Returned _ _ _ _ _ H2).
  reflexivity.
Qed.

Lemma startup_then_regular_witness :
  exists r',
    (first <- ReceiveStartupMessage ;;
     second <- Receive ;;
     ret (first, second))
      (fresh_conn [[x00; x00; x00; x05; x01; "Q"%byte]; [x00; x00];
                   [x00; x06; x02; x03; x09]] EOF)
    = Returned (([x00; x00; x00; x05] ++ [x01], 5, None),
                (("Q"%byte :: [x00; x00; x00; x06]) ++ [x02; x03],
                 5 + (6 - 4), None)) r'
    /\ net.pending r' = [x09].
Proof.
  apply (startup_then_regular
           (fresh_conn [[x00; x00; x00; x05; x01; "Q"%byte]; [x00; x00];
                        [x00; x06; x02; x03; x09]] EOF)
           [x00; x00; x00; x05] [x01] "Q"%byte [x00; x00; x00; x06]
           [x02; x03] [x09]); reflexivity.
Defined.

(** X11.  Steady state: on a stream that carries two regular messages one
    after the other, two calls of [Receive] return them in order and leave
    what follows them unread. *)
Theorem regular_then_regular
        (r : net.Conn) (type1 : byte) (len1 body1 : list byte)
        (type2 : byte) (len2 body2 rest : list byte) :
  net.is_closed r = false ->
  length len1 = 4%nat ->
  Z.of_nat (length body1) = binary.BigEndian_Uint32 len1 - 4 ->
  length len2 = 4%nat ->
  Z.of_nat (length body2) = binary.BigEndian_Uint32 len2 - 4 ->
  net.pending r
  = ((type1 :: len1) ++ body1) ++ ((type2 :: len2) ++ body2) ++ rest ->
  exists r',
    (first <- Receive ;; second <- Receive ;; ret (first, second)) r
    = Returned (((type1 :: len1) ++ body1,
                 5 + (binary.BigEndian_Uint32 len1 - 4), None),
                ((type2 :: len2) ++ body2,
                 5 + (binary.BigEndian_Uint32 len2 - 4), None)) r'
    /\ net.pending r' = rest.
Proof.
  intros Hopen Hl1 Hb1 Hl2 Hb2 Hpend.
  rewrite <- !app_assoc in Hpend.
  assert (Hpend0 : net.pending r
                   = (type1 :: len1) ++ body1 ++ type2 :: len2 ++ body2 ++ rest)
    by exact Hpend.
  destruct (Receive_frame r type1 len1 body1 (type2 :: len2 ++ body2 ++ rest)
              Hopen Hpend0 Hl1 Hb1)
    as (r1 & H1 & Hp1 & Hc1 & _).
  assert (Hopen1 : net.is_closed r1 = false) by now rewrite Hc1.
  assert (Hpend1 : net.pending r1 = (type2 :: len2) ++ body2 ++ rest)
    by exact Hp1.
  destruct (Receive_frame r1 type2 len2 body2 rest Hopen1 Hpend1 Hl2 Hb2)
    as (r2 & H2 & Hp2 & _).
  exists r2. split; [| exact Hp2].
  rewrite (bind_Returned _ _ _ _ _ H1), (bind_Returned _ _ _ _ _ H2).
  reflexivity.
Qed.

Lemma regular_then_regular_witness :
  exists r',
    (first <- Receive ;; second <- Receive ;; ret (first, second))
      (fresh_conn [["Q"%byte; x00; x00; x00; x05; x01; "X"%byte]; [x00; x00];
                   [x00; x04; x09]] EOF)
    = Returned ((("Q"%byte :: [x00; x00; x00; x05]) ++ [x01],
                 5 + (5 - 4), None),
                (("X"%byte :: [x00; x00; x00; x04]) ++ [],
                 5 + (4 - 4), None)) r'
    /\ net.pending r' = [x09].
Proof.
  apply (regular_then_regular
           (fresh_conn [["Q"%byte; x00; x00; x00; x05; x01; "X"%byte];
                        [x00; x00]; [x00; x04; x09]] EOF)
           "Q"%byte [x00; x00; x00; x05] [x01]
           "X"%byte [x00; x00; x00; x04] [] [x09]); reflexivity.
Defined.

(** ** Independence of the segmentation *)

Ltac same_run E1 E2 P1 P2 :=
  rewrite E1, E2; cbn [outcome final_state option_map];
  rewrite P1, P2; split; reflexivity.

(** X12.  What [Receive] ends with, and what it leaves on the stream,
    depends only on the bytes the peer sends and on how the stream ends,
    not on how the bytes are cut into segments. *)
Theorem Receive_segmentation_independent (r1 r2 : net.Conn) :
  net.is_closed r1 = false ->
  net.is_closed r2 = false ->
  net.pending r1 = net.pending r2 ->
  net.at_end r1 = net.at_end r2 ->
  outcome (Receive r1) = outcome (Receive r2)
  /\ option_map net.pending (final_state (Receive r1))
     = option_map net.pending (final_state (Receive r2)).
Proof.
  intros Ho1 Ho2 Hp He.
  destruct (Nat.lt_ge_cases (length (net.pending r1)) 5) as [Hshort | Hlong].
  - destruct (Receive_header_short r1 Ho1 Hshort) as (r1' & E1 & P1).
    rewrite Hp in Hshort.
    destruct (Receive_header_short r2 Ho2 Hshort) as (r2' & E2 & P2).
    rewrite <- Hp, <- He in E2. same_run E1 E2 P1 P2.
  - destruct (net.pending r1) as [| type tail0] eqn:Hp1;
      [simpl in Hlong; lia |].
    cbn [length] in Hlong. symmetry in Hp.
    set (len := firstn 4 tail0). set (tail := skipn 4 tail0).
    assert (Hsplit : type :: tail0 = (type :: len) ++ tail)
      by (cbn [app]; unfold len, tail; now rewrite firstn_skipn).
    assert (Hlen : length len = 4%nat)
      by (unfold len; rewrite length_firstn; lia).
    rewrite Hsplit in Hp.
    assert (Hp1' : net.pending r1 = (type :: len) ++ tail)
      by (rewrite Hp1; exact Hsplit).
    destruct (Z.lt_ge_cases (binary.BigEndian_Uint32 len) 4) as [HL | HL].
    + destruct (Receive_short_length r1 type len tail Ho1 Hp1' Hlen HL)
        as (r1' & E1 & P1).
      destruct (Receive_short_length r2 type len tail Ho2 Hp Hlen HL)
        as (r2' & E2 & P2).
      same_run E1 E2 P1 P2.
    + destruct (Z.lt_ge_cases (Z.of_nat (length tail))
                              (binary.BigEndian_Uint32 len - 4)) as [Ht | Ht].
      * destruct (Receive_truncated_rest r1 type len tail Ho1 Hp1' Hlen Ht)
          as (r1' & E1 & P1).
        destruct (Receive_truncated_rest r2 type len tail Ho2 Hp Hlen Ht)
          as (r2' & E2 & P2).
        rewrite <- He in E2. same_run E1 E2 P1 P2.
      * set (k := Z.to_nat (binary.BigEndian_Uint32 len - 4)).
        assert (Hk : Z.of_nat (length (firstn k tail))
                     = binary.BigEndian_Uint32 len - 4)
          by (rewrite length_firstn; unfold k; lia).
        rewrite <- (firstn_skipn k tail) in Hp1', Hp.
        destruct (Receive_frame r1 type len (firstn k tail) (skipn k tail)
                    Ho1 Hp1' Hlen Hk) as (r1' & E1 & P1 & _).
        destruct (Receive_frame r2 type len (firstn k tail) (skipn k tail)
                    Ho2 Hp Hlen Hk) as (r2' & E2 & P2 & _).
        same_run E1 E2 P1 P2.
Qed.

Lemma Receive_segmentation_independent_witness :
  outcome (Receive sample_regular)
  = outcome (Receive (fresh_conn [[]; ["Q"%byte; x00; x00; x00; x08; x01; x02];
                                  []; [x03]; [x04; x05]] EOF))
  /\ option_map net.pending (final_state (Receive sample_regular))
     = option_map net.pending
         (final_state
            (Receive (fresh_conn [[]; ["Q"%byte; x00; x00; x00; x08; x01; x02];
                                  []; [x03]; [x04; x05]] EOF))).
Proof.
  apply (Receive_segmentation_independent sample_regular
           (fresh_conn [[]; ["Q"%byte; x00; x00; x00; x08; x01; x02];
                        []; [x03]; [x04; x05]] EOF)); reflexivity.
Defined.

(** X13.  What [ReceiveStartupMessage] ends with, and what it leaves on the
    stream, depends only on the bytes the peer sends and on how the stream
    ends, not on how the bytes are cut into segments. *)
Theorem ReceiveStartupMessage_segmentation_independent (r1 r2 : net.Conn) :
  net.is_closed r1 = false ->
  net.is_closed r2 = false ->
  net.pending r1 = net.pending r2 ->
  net.at_end r1 = net.at_end r2 ->
  outcome (ReceiveStartupMessage r1) = outcome (ReceiveStartupMessage r2)
  /\ option_map net.pending (final_state (ReceiveStartupMessage r1))
     = option_map net.pending (final_state (ReceiveStartupMessage r2)).
Proof.
  intros Ho1 Ho2 Hp He.
  destruct (Nat.lt_ge_cases (length (net.pending r1)) 4) as [Hshort | Hlong].
  - destruct (ReceiveStartupMessage_header_short r1 Ho1 Hshort)
      as (r1' & E1 & P1).
    rewrite Hp in Hshort.
    destruct (ReceiveStartupMessage_header_short r2 Ho2 Hshort)
      as (r2' & E2 & P2).
    rewrite <- Hp, <- He in E2. same_run E1 E2 P1 P2.
  - symmetry in Hp.
    set (header := firstn 4 (net.pending r1)).
    set (tail := skipn 4 (net.pending r1)).
    assert (Hp1 : net.pending r1 = header ++ tail)
      by (unfold header, tail; now rewrite firstn_skipn).
    assert (Hlen : length header = 4%nat)
      by (unfold header; rewrite length_firstn; lia).
    rewrite Hp1 in Hp.
    destruct (Z.lt_ge_cases (binary.BigEndian_Uint32 header) 4) as [HL | HL].
    + destruct (ReceiveStartupMessage_short_length r1 header tail
                  Ho1 Hp1 Hlen HL) as (r1' & E1 & P1).
      destruct (ReceiveStartupMessage_short_length r2 header tail
                  Ho2 Hp Hlen HL) as (r2' & E2 & P2).
      same_run E1 E2 P1 P2.
    + destruct (Z.lt_ge_cases (Z.of_nat (length tail))
                              (binary.BigEndian_Uint32 header - 4))
        as [Ht | Ht].
      * destruct (ReceiveStartupMessage_truncated_rest r1 header tail
                    Ho1 Hp1 Hlen Ht) as (r1' & E1 & P1).
        destruct (ReceiveStartupMessage_truncated_rest r2 header tail
                    Ho2 Hp Hlen Ht) as (r2' & E2 & P2).
        rewrite <- He in E2. same_run E1 E2 P1 P2.
      * set (k := Z.to_nat (binary.BigEndian_Uint32 header - 4)).
        assert (Hk : Z.of_nat (length (firstn k tail))
                     = binary.BigEndian_Uint32 header - 4)
          by (rewrite length_firstn; unfold k; lia).
        rewrite <- (firstn_skipn k tail) in Hp1, Hp.
        destruct (ReceiveStartupMessage_frame r1 header (firstn k tail)
                    (skipn k tail) Ho1 Hp1 Hlen Hk) as (r1' & E1 & P1 & _).
        destruct (ReceiveStartupMessage_frame r2 header (firstn k tail)
                    (skipn k tail) Ho2 Hp Hlen Hk) as (r2' & E2 & P2 & _).
        same_run E1 E2 P1 P2.
Qed.

Lemma ReceiveStartupMessage_segmentation_independent_witness :
  outcome (ReceiveStartupMessage sample_startup)
  = outcome (ReceiveStartupMessage
               (fresh_conn [[x00]; []; [x00; x00; x08; x01; x02; x03; x04; x05]]
                           EOF))
  /\ option_map net.pending (final_state (ReceiveStartupMessage sample_startup))
     = option_map net.pending
         (final_state
            (ReceiveStartupMessage
               (fresh_conn [[x00]; []; [x00; x00; x08; x01; x02; x03; x04; x05]]
                           EOF))).
Proof.
  apply (ReceiveStartupMessage_segmentation_independent sample_startup
           (fresh_conn [[x00]; []; [x00; x00; x08; x01; x02; x03; x04; x05]]
                       EOF)); reflexivity.
Defined.

(** * Further properties of [Connect] and [Send] *)

Lemma Write_ok (c c' : net.Conn) (p : list byte) (n : nat) :
  net.Write c p = (n, None, c') ->
  n = length p
  /\ net.sent c' = net.sent c ++ p
  /\ net.is_closed c' = false
  /\ net.incoming c' = net.incoming c
  /\ net.at_end c' = net.at_end c.
Proof.
  unfold net.Write. cbn [net.called net.is_closed net.write_error].
  destruct (net.is_closed c) eqn:E; [discriminate |].
  destruct (net.write_error c); [discriminate |].
  intros H. injection H as <- <-. repeat split; exact E.
Qed.

Lemma Write_failed (c c' : net.Conn) (p : list byte) (n : nat) (e : error) :
  net.Write c p = (n, Some e, c') ->
  n = 0%nat
  /\ net.sent c' = net.sent c
  /\ net.is_closed c' = net.is_closed c
  /\ net.incoming c' = net.incoming c.
Proof.
  unfold net.Write. cbn [net.called net.is_closed net.write_error].
  destruct (net.is_closed c) eqn:E.
  { intros H. injection H as <- _ <-. repeat split; exact E. }
  destruct (net.write_error c); [| discriminate].
  intros H. injection H as <- _ <-. repeat split; exact E.
Qed.

Section ConnectorFurther.

Variable code : Z.
Variable upgrade : string -> handle -> IO World handle.

(** The run of [Connect] up to the test of the response. *)
Lemma Connect_exchange_run
      (host : string) nw st l sk (c c1 c2 : net.Conn)
      (n1 n2 : nat) (response : list byte) :
  nw "tcp" host = inl c ->
  st "credentials.ssl.enable" = true ->
  net.Write c (ssl_request code) = (n1, None, c1) ->
  net.Read c1 (repeat x00 4096) = (n2, None, response, c2) ->
  Connect code upgrade host (mkWorld nw st l sk)
  = (if (0 <? length response)%nat
        && negb (Byte.eqb (index response 0) "S"%byte)
     then
       log.Error "The backend does not allow SSL connections." ;;
       _ <- on (Some (length l)) net.Close ;;
       ret (Some (length l), None)
     else
       log.Debug "SSL connections are allowed by PostgreSQL." ;;
       log.Debug "Attempting to upgrade connection." ;;
       upgraded <- upgrade host (Some (length l)) ;;
       log.Debug "Connection successfully upgraded." ;;
       ret (upgraded, None))
      (mkWorld nw st (l ++ [c2]) (sk ++ [enabled_entry])).
Proof.
  intros Hdial Hssl Hw Hr. unfold Connect.
  rewrite (bind_Returned _ _ _ _ _ (Connect_dialled host nw st l sk c Hdial)).
  cbv beta iota.
  erewrite bind_Returned by reflexivity.
  cbn [settings]. rewrite Hssl.
  erewrite bind_Returned by reflexivity.
  erewrite bind_Returned by (apply on_last; exact Hw).
  cbv beta iota.
  rewrite (bind_Returned _ _ _ _ _ (make_response _)).
  erewrite bind_Returned by (apply on_last; exact Hr).
  reflexivity.
Qed.

Lemma Connect_dial_failure_run (host : string) nw st l sk (e : error) :
  nw "tcp" host = inr e ->
  Connect code upgrade host (mkWorld nw st l sk)
  = Returned (None, Some e) (mkWorld nw st l sk).
Proof.
  intros Hdial. unfold Connect.
  assert (Hrun : net_Dial "tcp" host (mkWorld nw st l sk)
                 = Returned (None, Some e) (mkWorld nw st l sk))
    by (unfold net_Dial; cbn [network]; now rewrite Hdial).
  rewrite (bind_Returned _ _ _ _ _ Hrun). reflexivity.
Qed.

(** X14.  When the dial fails, [Connect] returns a nil handle and the error
    of the dial, and the world is as it was: no socket has been opened, the
    configuration has not been consulted to any effect and nothing has been
    logged. *)
Theorem Connect_dial_failure (host : string) (w : World) (e : error) :
  network w "tcp" host = inr e ->
  Connect code upgrade host w = Returned (None, Some e) w.
Proof.
  destruct w as [nw st l sk]. cbn [network]. intros Hdial.
  now apply Connect_dial_failure_run.
Qed.

(** X15.  With SSL switched on, when the write of the SSL request fails,
    [Connect] returns a nil handle and the error of the write.  It has
    logged the failure and the text of the error, it has made no other call
    on the socket than the one [Write], nothing has been sent, and the
    socket has not been closed: it stays open in the world with no handle
    returned for it. *)
Theorem Connect_write_failure
        (host : string) (w : World) (c c' : net.Conn) (n : nat) (e : error) :
  network w "tcp" host = inl c ->
  settings w "credentials.ssl.enable" = true ->
  net.Write c (ssl_request code) = (n, Some e, c') ->
  Connect code upgrade host w
  = Returned (None, Some e)
      (mkWorld (network w) (settings w) (sockets w ++ [c'])
         (sink w
            ++ [enabled_entry;
                mkEntry ErrorLevel "Error sending SSL request to backend." [];
                mkEntry ErrorLevel "Error: %s" [Error e]]))
  /\ net.calls c' = net.calls c ++ [net.CallWrite (ssl_request code)]
  /\ net.sent c' = net.sent c
  /\ net.is_closed c' = net.is_closed c.
Proof.
  destruct w as [nw st l sk]. cbn [network settings sockets sink].
  intros Hdial Hssl Hw. split.
  - unfold Connect.
    rewrite (bind_Returned _ _ _ _ _ (Connect_dialled host nw st l sk c Hdial)).
    cbv beta iota.
    erewrite bind_Returned by reflexivity.
    cbn [settings]. rewrite Hssl.
    erewrite bind_Returned by reflexivity.
    erewrite bind_Returned by (apply on_last; exact Hw).
    cbv beta iota.
    do 2 erewrite bind_Returned by reflexivity.
    cbn [network settings sockets sink]. rewrite <- !app_assoc. reflexivity.
  - split; [eapply Write_calls; exact Hw |].
    apply Write_failed in Hw as (_ & Hs & Hc & _). split; assumption.
Qed.

(** X16.  With SSL switched on, when the SSL request has been written and
    the read of the response fails, [Connect] returns a nil handle and the
    error of the read.  It has logged the failure and the text of the
    error, the eight bytes of the request have been sent, and the socket
    has not been closed: it stays open in the world with no handle returned
    for it. *)
Theorem Connect_read_failure
        (host : string) (w : World) (c c1 c' : net.Conn)
        (n1 n2 : nat) (response : list byte) (e : error) :
  network w "tcp" host = inl c ->
  settings w "credentials.ssl.enable" = true ->
  net.Write c (ssl_request code) = (n1, None, c1) ->
  net.Read c1 (repeat x00 4096) = (n2, Some e, response, c') ->
  Connect code upgrade host w
  = Returned (None, Some e)
      (mkWorld (network w) (settings w) (sockets w ++ [c'])
         (sink w
            ++ [enabled_entry;
                mkEntry ErrorLevel
                        "Error receiving SSL response from backend." [];
                mkEntry ErrorLevel "Error: %s" [Error e]]))
  /\ net.sent c' = net.sent c ++ ssl_request code
  /\ length (ssl_request code) = 8%nat
  /\ net.is_closed c' = false.
Proof.
  destruct w as [nw st l sk]. cbn [network settings sockets sink].
  intros Hdial Hssl Hw Hr. split.
  - unfold Connect.
    rewrite (bind_Returned _ _ _ _ _ (Connect_dialled host nw st l sk c Hdial)).
    cbv beta iota.
    erewrite bind_Returned by reflexivity.
    cbn [settings]. rewrite Hssl.
    erewrite bind_Returned by reflexivity.
    erewrite bind_Returned by (apply on_last; exact Hw).
    cbv beta iota.
    rewrite (bind_Returned _ _ _ _ _ (make_response _)).
    erewrite bind_Returned by (apply on_last; exact Hr).
    cbv beta iota.
    do 2 erewrite bind_Returned by reflexivity.
    cbn [network settings sockets sink]. rewrite <- !app_assoc. reflexivity.
  - apply Write_ok in Hw as (_ & Hs & Hc & _).
    apply Read_only_reads in Hr as [(Hc' & _ & _ & Hs') _].
    split; [congruence |]. split; [reflexivity | congruence].
Qed.

Lemma Write_closed (c : net.Conn) (p : list byte) :
  net.is_closed c = true ->
  net.Write c p = (0%nat, Some ErrClosed, net.called c (net.CallWrite p)).
Proof.
  intros Hc. unfold net.Write. cbn [net.called net.is_closed]. now rewrite Hc.
Qed.

(** X17.  With SSL switched on and a response whose first byte is not 'S',
    [Send] on the connection that [Connect] returns fails with the
    closed-connection error: the handle is that of the socket [Connect] has
    closed, and of the message nothing is sent. *)
Theorem send_after_rejection
        (host : string) (message : list byte) (w : World)
        (c c1 c2 : net.Conn) (n1 n2 : nat) (response : list byte) :
  network w "tcp" host = inl c ->
  settings w "credentials.ssl.enable" = true ->
  net.Write c (ssl_request code) = (n1, None, c1) ->
  net.Read c1 (repeat x00 4096) = (n2, None, response, c2) ->
  Byte.eqb (index response 0) "S"%byte = false ->
  exists c4,
    (result <- Connect code upgrade host ;; Send (fst result) message) w
    = Returned (0%nat, Some ErrClosed)
        (mkWorld (network w) (settings w) (sockets w ++ [c4])
           (sink w
              ++ [enabled_entry;
                  mkEntry ErrorLevel
                          "The backend does not allow SSL connections." []]))
    /\ net.is_closed c4 = true
    /\ net.sent c4 = net.sent c ++ ssl_request code
    /\ net.calls c4
       = net.calls c
           ++ [net.CallWrite (ssl_request code); net.CallRead 4096;
               net.CallClose; net.CallWrite message].
Proof.
  destruct w as [nw st l sk]. cbn [network settings sockets sink].
  intros Hdial Hssl Hw Hr Hfirst.
  pose proof (Read_length _ _ _ _ _ _ Hr) as Hlen.
  rewrite repeat_length in Hlen.
  set (c3 := snd (net.Close c2)).
  assert (Hc3 : net.is_closed c3 = true) by apply Close_closes.
  exists (net.called c3 (net.CallWrite message)). split.
  - erewrite bind_Returned.
    2:{ rewrite (Connect_exchange_run host nw st l sk c c1 c2 n1 n2 response)
          by assumption.
        rewrite Hlen, Hfirst. change (0 <? 4096)%nat with true. cbn [andb negb].
        erewrite bind_Returned by reflexivity.
        erewrite bind_Returned by (apply on_last; apply surjective_pairing).
        reflexivity. }
    cbn [fst]. unfold Send.
    erewrite on_last by (apply Write_closed; exact Hc3).
    cbn [network settings sockets sink]. rewrite <- !app_assoc. reflexivity.
  - split; [exact Hc3 |].
    apply Write_ok in Hw as Hok. destruct Hok as (_ & Hs & _).
    apply Write_calls in Hw. apply Read_calls in Hr as Hrc.
    apply Read_only_reads in Hr as [(_ & _ & _ & Hs') _].
    rewrite repeat_length in Hrc.
    assert (Hsent3 : net.sent c3 = net.sent c2)
      by (unfold c3, net.Close; cbn [net.called net.is_closed];
          destruct (net.is_closed c2); reflexivity).
    split.
    + cbn [net.called net.sent]. congruence.
    + cbn [net.called net.calls]. unfold c3.
      rewrite Close_calls, Hrc, Hw, <- !app_assoc. reflexivity.
Qed.

(** X18.  With SSL switched off and a dialled socket that is open and whose
    writes succeed, [Send] on the connection that [Connect] returns gives
    the length of the message and a nil error; the message is the only
    thing written on the new socket, and nothing has been read from it or
    logged. *)
Theorem send_after_plain_connect
        (host : string) (message : list byte) (w : World) (c : net.Conn) :
  network w "tcp" host = inl c ->
  settings w "credentials.ssl.enable" = false ->
  net.is_closed c = false ->
  net.write_error c = None ->
  (result <- Connect code upgrade host ;; Send (fst result) message) w
  = Returned (length message, None)
      (mkWorld (network w) (settings w)
         (sockets w
            ++ [net.mkConn (net.incoming c) (net.at_end c) None
                           (net.sent c ++ message) false
                           (net.calls c ++ [net.CallWrite message])])
         (sink w)).
Proof.
  destruct w as [nw st l sk]. cbn [network settings sockets sink].
  intros Hdial Hssl Hopen Hwe.
  erewrite bind_Returned.
  2:{ unfold Connect.
      rewrite (bind_Returned _ _ _ _ _
                 (Connect_dialled host nw st l sk c Hdial)).
      cbv beta iota.
      erewrite bind_Returned by reflexivity.
      cbn [settings]. rewrite Hssl. reflexivity. }
  cbn [fst]. unfold Send.
  apply on_last.
  unfold net.Write. cbn [net.called net.is_closed net.write_error].
  rewrite Hopen, Hwe. reflexivity.
Qed.

(** X19.  Whatever the upgrade does, an error returned by [Connect] never
    comes with a handle: when the error is not nil the handle is nil. *)
Theorem Connect_error_without_handle
        (host : string) (w w' : World) (h : handle) (e : error) :
  Connect code upgrade host w = Returned (h, Some e) w' ->
  h = None.
Proof.
  destruct w as [nw st l sk]. intros H.
  destruct (nw "tcp" host) as [c | e0] eqn:Hdial.
  2:{ rewrite (Connect_dial_failure_run host nw st l sk e0 Hdial) in H.
      congruence. }
  revert H. unfold Connect.
  rewrite (bind_Returned _ _ _ _ _ (Connect_dialled host nw st l sk c Hdial)).
  cbv beta iota.
  erewrite bind_Returned by reflexivity.
  cbn [settings]. destruct (st "credentials.ssl.enable"); [| discriminate].
  erewrite bind_Returned by reflexivity.
  destruct (net.Write c (ssl_request code)) as [[n1 e1] c1] eqn:Hw.
  erewrite bind_Returned by (apply on_last; exact Hw).
  cbv beta iota. destruct e1 as [e1 |].
  { do 2 erewrite bind_Returned by reflexivity. unfold ret. congruence. }
  rewrite (bind_Returned _ _ _ _ _ (make_response _)).
  destruct (net.Read c1 (repeat x00 4096)) as [[[n2 e2] response] c2] eqn:Hr.
  erewrite bind_Returned by (apply on_last; exact Hr).
  cbv beta iota. destruct e2 as [e2 |].
  { do 2 erewrite bind_Returned by reflexivity. unfold ret. congruence. }
  destruct ((0 <? length response)%nat
            && negb (Byte.eqb (index response 0) "S"%byte)).
  - erewrite bind_Returned by reflexivity.
    erewrite bind_Returned by (apply on_last; apply surjective_pairing).
    discriminate.
  - do 2 erewrite bind_Returned by reflexivity.
    unfold bind at 1.
    destruct (upgrade host (Some (length l)) _) as [h' w4 | msg w4 |];
      discriminate.
Qed.

End ConnectorFurther.

Lemma Connect_dial_failure_witness :
  Connect postgres_SSLRequestCode upgrade_in_place "db:5432" backend_unreachable
  = Returned (None, Some (OpError "connection refused")) backend_unreachable.
Proof.
  apply (Connect_dial_failure postgres_SSLRequestCode upgrade_in_place
           "db:5432" backend_unreachable (OpError "connection refused")).
  reflexivity.
Defined.

Lemma Connect_write_failure_witness :
  exists c',
    Connect postgres_SSLRequestCode upgrade_in_place "db:5432"
            backend_refusing_writes
    = Returned (None, Some (OpError "broken pipe"))
        (mkWorld (network backend_refusing_writes)
           (settings backend_refusing_writes)
           (sockets backend_refusing_writes ++ [c'])
           (sink backend_refusing_writes
              ++ [enabled_entry;
                  mkEntry ErrorLevel "Error sending SSL request to backend." [];
                  mkEntry ErrorLevel "Error: %s" ["broken pipe"]]))
    /\ net.calls c'
       = [] ++ [net.CallWrite (ssl_request postgres_SSLRequestCode)]
    /\ net.sent c' = []
    /\ net.is_closed c' = false.
Proof.
  eexists.
  eapply (Connect_write_failure postgres_SSLRequestCode upgrade_in_place
            "db:5432" backend_refusing_writes
            (net.mkConn [] EOF (Some (OpError "broken pipe")) [] false [])).
  - reflexivity.
  - reflexivity.
  - reflexivity.
Defined.

Lemma Connect_read_failure_witness :
  exists c',
    Connect postgres_SSLRequestCode upgrade_in_place "db:5432"
            (backend_answering [])
    = Returned (None, Some EOF)
        (mkWorld (network (backend_answering []))
           (settings (backend_answering []))
           (sockets (backend_answering []) ++ [c'])
           (sink (backend_answering [])
              ++ [enabled_entry;
                  mkEntry ErrorLevel
                          "Error receiving SSL response from backend." [];
                  mkEntry ErrorLevel "Error: %s" ["EOF"]]))
    /\ net.sent c' = [] ++ ssl_request postgres_SSLRequestCode
    /\ length (ssl_request postgres_SSLRequestCode) = 8%nat
    /\ net.is_closed c' = false.
Proof.
  eexists.
  eapply (Connect_read_failure postgres_SSLRequestCode upgrade_in_place
            "db:5432" (backend_answering []) (fresh_conn [] EOF)).
  - reflexivity.
  - reflexivity.
  - reflexivity.
  - reflexivity.
Defined.

Lemma send_after_rejection_witness :
  exists c4,
    (result <- Connect postgres_SSLRequestCode upgrade_in_place "db:5432" ;;
     Send (fst result) ["Q"%byte; x00; x00; x00; x04])
      (backend_answering [["N"%byte]])
    = Returned (0%nat, Some ErrClosed)
        (mkWorld (network (backend_answering [["N"%byte]]))
           (settings (backend_answering [["N"%byte]]))
           (sockets (backend_answering [["N"%byte]]) ++ [c4])
           (sink (backend_answering [["N"%byte]])
              ++ [enabled_entry;
                  mkEntry ErrorLevel
                          "The backend does not allow SSL connections." []]))
    /\ net.is_closed c4 = true
    /\ net.sent c4 = [] ++ ssl_request postgres_SSLRequestCode
    /\ net.calls c4
       = [] ++ [net.CallWrite (ssl_request postgres_SSLRequestCode);
                net.CallRead 4096; net.CallClose;
                net.CallWrite ["Q"%byte; x00; x00; x00; x04]].
Proof.
  eapply (send_after_rejection postgres_SSLRequestCode upgrade_in_place
            "db:5432" ["Q"%byte; x00; x00; x00; x04]
            (backend_answering [["N"%byte]]) (fresh_conn [["N"%byte]] EOF)).
  - reflexivity.
  - reflexivity.
  - reflexivity.
  - reflexivity.
  - vm_compute. reflexivity.
Defined.

Lemma send_after_plain_connect_witness :
  (result <- Connect postgres_SSLRequestCode upgrade_in_place "db:5432" ;;
   Send (fst result) ["Q"%byte; x00; x00; x00; x04])
    (fresh_world (inl (fresh_conn [] EOF)) false)
  = Returned (5%nat, None)
      (mkWorld (fun _ _ => inl (fresh_conn [] EOF)) (fun _ => false)
         [net.mkConn [] EOF None ["Q"%byte; x00; x00; x00; x04] false
                     [net.CallWrite ["Q"%byte; x00; x00; x00; x04]]]
         []).
Proof.
  apply (send_after_plain_connect postgres_SSLRequestCode upgrade_in_place
           "db:5432" ["Q"%byte; x00; x00; x00; x04]
           (fresh_world (inl (fresh_conn [] EOF)) false) (fresh_conn [] EOF));
    reflexivity.
Defined.

Lemma Connect_error_without_handle_witness : @None nat = None.
Proof.
  eapply (Connect_error_without_handle postgres_SSLRequestCode upgrade_in_place
            "db:5432" (backend_answering []) _ None EOF).
  vm_compute. reflexivity.
Defined.
